(** * import-embargo: the policy core of [import_embargo/core.py]

    A shallow embedding of the policy resolution ([get_package_config]),
    the prefix-matching engine ([is_operation_allowed]) and the
    two-directional check ([check_for_allowed]) of
    [src/import_embargo/core.py], followed by the properties that the
    specification states about them.

    Conventions of the embedding:
    - a Python [str] is a Rocq [string] (one [ascii] per character);
    - a [pathlib.Path] is an anchor and its list of components, as
      [PurePosixPath] normalises them;
    - the dicts of the program ([config_lookup], [Config.allowed]) are
      [gmap]s, a parsed JSON object is the list of its items; the
      mutated [config_lookup] is threaded through every call and
      returned next to the result;
    - an exception is a [Raise] outcome; the recursion of
      [get_package_config] takes fuel, [OutOfFuel] meaning that the
      given number of nested calls was not enough (the interpreter's own
      recursion limit is not modelled);
    - [json.loads], [repr] on [str] and [get_import_nodes] (the [ast]
      parser) are library code: they are the variables of the section. *)

From Stdlib Require Import Ascii String List Bool Arith Lia.
From stdpp Require Import base option list strings gmap.

Set Warnings "-register-all".

Local Open Scope string_scope.

(* ------------------------------------------------------------------ *)
(** ** Python strings *)

Module PyStr.

(** [s.startswith(p)] *)
Fixpoint startswith (p s : string) : bool :=
    match p, s with
    | EmptyString, _ => true
    | String a p', String b s' => if Ascii.eqb a b then startswith p' s' else false
    | String _ _, EmptyString => false
    end.

(** [s.endswith(p)] *)
Definition endswith (p s : string) : bool :=
    startswith (String.rev p) (String.rev s).

(** Drop the first [n] characters: [s[n:]]. *)
Fixpoint drop_chars (n : nat) (s : string) : string :=
    match n, s with
    | O, _ => s
    | S n', String _ s' => drop_chars n' s'
    | S _, EmptyString => EmptyString
    end.

(** [s.replace(old, new)] for a non-empty [old]: the occurrences of
      [old] are found from left to right and do not overlap; every one of
      them is replaced.  [skip] counts the characters of a matched
      occurrence that are still to be dropped. *)
Fixpoint replace_from (skip : nat) (old new s : string) : string :=
    match s with
    | EmptyString => EmptyString
    | String c s' =>
        match skip with
        | S k => replace_from k old new s'
        | O =>
            if startswith old s
            then new +:+ replace_from (String.length old - 1) old new s'
            else String c (replace_from 0 old new s')
        end
    end.

Definition replace (old new s : string) : string := replace_from 0 old new s.

(** [s.split(sep)] for a one-character separator: [n] separators give
      [n + 1] pieces, empty ones included. *)
Fixpoint split (sep : ascii) (s : string) : list string :=
    match s with
    | EmptyString => [EmptyString]
    | String c s' =>
        if Ascii.eqb c sep then EmptyString :: split sep s'
        else match split sep s' with
             | [] => [String c EmptyString]
             | w :: ws => String c w :: ws
             end
    end.

(** [sep.join(l)] *)
Definition join (sep : string) (l : list string) : string := String.concat sep l.

(** The characters of a string, each as a one-character string
      (iterating over a [str]). *)
Fixpoint chars (s : string) : list string :=
    match s with
    | EmptyString => []
    | String c s' => String c EmptyString :: chars s'
    end.

(** [s.rstrip(".")]: every trailing dot is removed. *)
Fixpoint rstrip_dot (s : string) : string :=
    match s with
    | EmptyString => EmptyString
    | String c s' =>
        match rstrip_dot s' with
        | EmptyString => if Ascii.eqb c "." then EmptyString else String c EmptyString
        | r => String c r
        end
    end.

(** Number of leading occurrences of [c]. *)
Fixpoint count_leading (c : ascii) (s : string) : nat :=
    match s with
    | String a s' => if Ascii.eqb a c then S (count_leading c s') else 0
    | EmptyString => 0
    end.

End PyStr.

(* ------------------------------------------------------------------ *)
(** ** Outcomes of a call *)

Inductive exn : Type :=
| JSONDecodeError     (* json.loads on malformed text *)
| ReadError           (* read_text on something unreadable (OSError and the like) *)
| AttributeError      (* .get on a JSON value that is not an object *)
| TypeError           (* iterating or concatenating a value of the wrong type *)
| KeyError            (* config.allowed[mode] without that key *)
| ValueError          (* relative_to outside the other path *)
| InvalidMode         (* Exception("Invalid mode") *)
| ParserError.        (* get_import_nodes failing on the source file *)

Inductive outcome (A : Type) : Type :=
| Ret (a : A)
| Raise (e : exn)
| OutOfFuel.
Arguments Ret {A} a.
Arguments Raise {A} e.
Arguments OutOfFuel {A}.

Definition is_Ret {A} (o : outcome A) : bool :=
  match o with Ret _ => true | _ => false end.

Definition obind {A B} (o : outcome A) (k : A -> outcome B) : outcome B :=
  match o with
  | Ret a => k a
  | Raise e => Raise e
  | OutOfFuel => OutOfFuel
  end.

(** [[f x for x in l]] with an [f] that may raise: the first failure
    ends the comprehension. *)
Fixpoint omap {A B} (f : A -> outcome B) (l : list A) : outcome (list B) :=
  match l with
  | [] => Ret []
  | x :: l' => obind (f x) (fun y => obind (omap f l') (fun ys => Ret (y :: ys)))
  end.

(* ------------------------------------------------------------------ *)
(** ** pathlib *)

(** The anchor of a POSIX path: none (a relative path), ["/"], or the
    ["//"] that POSIX keeps apart (exactly two leading slashes). *)
Inductive Anchor : Type := Relative | Slash | SlashSlash.

Global Instance Anchor_eq_dec : EqDecision Anchor.
Proof. solve_decision. Defined.

Record Path : Type := mkPath { anchor : Anchor; components : list string }.

Global Instance Path_eq_dec : EqDecision Path.
Proof. solve_decision. Defined.

Module Pathlib.

Definition anchor_str (a : Anchor) : string :=
    match a with Relative => "" | Slash => "/" | SlashSlash => "//" end.

Definition anchor_of (s : string) : Anchor :=
    match PyStr.count_leading "/" s with
    | 0 => Relative
    | 2 => SlashSlash
    | _ => Slash
    end.

Definition keep_component (w : string) : bool :=
    negb (String.eqb w "") && negb (String.eqb w ".").

(** [Path(s)]: empty components and ["."] components disappear. *)
Definition of_string (s : string) : Path :=
    mkPath (anchor_of s) (List.filter keep_component (PyStr.split "/" s)).

(** [str(p)] *)
Definition str (p : Path) : string :=
    match anchor p, components p with
    | Relative, [] => "."
    | a, cs => anchor_str a +:+ PyStr.join "/" cs
    end.

(** [p / q] *)
Definition truediv (p q : Path) : Path :=
    match anchor q with
    | Relative => mkPath (anchor p) (components p ++ components q)%list
    | _ => q
    end.

(** [p.parent]: the parent of an anchor, and of ["."], is itself. *)
Definition parent (p : Path) : Path :=
    mkPath (anchor p) (removelast (components p)).

(** [l] without its prefix [pre], when it has that prefix. *)
Fixpoint strip_prefix (pre l : list string) : option (list string) :=
    match pre, l with
    | [], _ => Some l
    | a :: pre', b :: l' => if String.eqb a b then strip_prefix pre' l' else None
    | _ :: _, [] => None
    end.

(** [p.relative_to(other)] *)
Definition relative_to (p other : Path) : outcome Path :=
    if decide (anchor p = anchor other) then
      match strip_prefix (components other) (components p) with
      | Some rest => Ret (mkPath Relative rest)
      | None => Raise ValueError
      end
    else Raise ValueError.

End Pathlib.

Notation "p // q" := (Pathlib.truediv p q) (at level 40, left associativity).

(* ------------------------------------------------------------------ *)
(** ** JSON values, as [json.loads] returns them *)

(** [None], [bool], a number (its literal), [str], [list], [dict] (its
    items; a Python [dict] holds a key once). *)
Inductive JSON : Type :=
| JNull
| JBool (b : bool)
| JNum (literal : string)
| JStr (s : string)
| JArr (items : list JSON)
| JObj (items : list (string * JSON)).

Module Json.

(** [d.get(name)] on the items of a [dict]: [None] when the key is
    missing. *)
Fixpoint dict_get (items : list (string * JSON)) (name : string) : JSON :=
  match items with
  | [] => JNull
  | (k, v) :: rest => if String.eqb k name then v else dict_get rest name
  end.

(** [name in d] *)
Fixpoint has_key (items : list (string * JSON)) (name : string) : bool :=
  match items with
  | [] => false
  | (k, _) :: rest => String.eqb k name || has_key rest name
  end.

(** [json_config.get(name)]: only a [dict] has [get]. *)
Definition get (json_config : JSON) (name : string) : outcome JSON :=
  match json_config with
  | JObj items => Ret (dict_get items name)
  | _ => Raise AttributeError
  end.

(** [x + "."]: only a [str] can be concatenated with a [str]. *)
Definition add_dot (x : JSON) : outcome string :=
  match x with
  | JStr s => Ret (s +:+ ".")
  | _ => Raise TypeError
  end.

(** [[x + "." for x in val]]: a list gives its items, a [str] its
    characters, a [dict] its keys; nothing else can be iterated. *)
Definition dotted_items (val : JSON) : outcome (list string) :=
  match val with
  | JArr items => omap add_dot items
  | JStr s => Ret (List.map (fun c => c +:+ ".") (PyStr.chars s))
  | JObj items => Ret (List.map (fun kv => fst kv +:+ ".") items)
  | JNull | JBool _ | JNum _ => Raise TypeError
  end.

End Json.

(* ------------------------------------------------------------------ *)
(** ** marisa_trie.Trie *)

(** A trie is the set of its keys.  [keys()] lists each key once; the
    order in which marisa lists them is its own, the model lists them in
    the order of their first occurrence. *)
Record Trie : Type := mkTrie { trie_keys : list string }.

Global Instance Trie_eq_dec : EqDecision Trie.
Proof. solve_decision. Defined.

Module MarisaTrie.

(** [l] with every element kept at its first occurrence only. *)
Fixpoint dedup (l : list string) : list string :=
  match l with
  | [] => []
  | x :: l' => x :: List.filter (fun y => negb (String.eqb x y)) (dedup l')
  end.

(** [marisa_trie.Trie(keys)] *)
Definition Trie_of (keys : list string) : Trie := mkTrie (dedup keys).

(** [t.keys()] *)
Definition keys (t : Trie) : list string := trie_keys t.

(** [t.prefixes(q)]: the keys that are prefixes of [q]. *)
Definition prefixes (t : Trie) (q : string) : list string :=
  List.filter (fun k => PyStr.startswith k q) (trie_keys t).

End MarisaTrie.

(* ------------------------------------------------------------------ *)
(** ** The data model of core.py *)

Inductive ModuleTreeBuildingMode : Type := IMPORT | EXPORT | BYPASS.

Global Instance Mode_eq_dec : EqDecision ModuleTreeBuildingMode.
Proof. solve_decision. Defined.

Global Instance Mode_countable : Countable ModuleTreeBuildingMode.
Proof.
  refine (inj_countable'
            (fun m => match m with IMPORT => 0 | EXPORT => 1 | BYPASS => 2 end)
            (fun n => match n with 0 => IMPORT | 1 => EXPORT | _ => BYPASS end) _).
  by intros [].
Defined.

(** [Config]: [allowed] maps a mode to its trie and the flag that says
    the key was not given. *)
Record Config : Type := mkConfig {
  allowed : gmap ModuleTreeBuildingMode (Trie * bool);
  path : string
}.

(** [ast.ImportFrom], of which the checks read [module] only. *)
Record ImportFrom : Type := mkImportFrom { module : option string }.

(** What a path names on disk: nothing, a directory, or a file whose
    text can be read ([Some]) or not ([None]). *)
Inductive FsNode : Type :=
| Directory
| RegularFile (text : option string).

(** The file system, by path string.  It does not change during a run. *)
Definition FileSystem : Type := string -> option FsNode.

Module Fs.

(** [p.exists()] *)
Definition exists_ (fs : FileSystem) (p : Path) : bool :=
  match fs (Pathlib.str p) with Some _ => true | None => false end.

(** [p.is_dir()] *)
Definition is_dir (fs : FileSystem) (p : Path) : bool :=
  match fs (Pathlib.str p) with Some Directory => true | _ => false end.

(** [p.read_text()] *)
Definition read_text (fs : FileSystem) (p : Path) : outcome string :=
  match fs (Pathlib.str p) with
  | Some (RegularFile (Some text)) => Ret text
  | _ => Raise ReadError
  end.

End Fs.

(* ------------------------------------------------------------------ *)
(** ** Calls that may raise and that share [config_lookup] *)

(** A call gets the lookup table and hands it back, changed or not,
    with its outcome; after a [Raise] nothing more runs. *)
Definition M (A : Type) : Type :=
  gmap string Config -> outcome A * gmap string Config.

Definition mret {A} (a : A) : M A := fun lk => (Ret a, lk).

Definition mraise {A} (e : exn) : M A := fun lk => (Raise e, lk).

Definition mlift {A} (o : outcome A) : M A := fun lk => (o, lk).

Definition mbind {A B} (c : M A) (k : A -> M B) : M B :=
  fun lk =>
    match c lk with
    | (Ret a, lk') => k a lk'
    | (Raise e, lk') => (Raise e, lk')
    | (OutOfFuel, lk') => (OutOfFuel, lk')
    end.

Notation "'call' x <- c ;> k" := (mbind c (fun x => k))
  (at level 10, x name, c at level 100, k at level 200).

(** A [for] loop whose body updates an accumulator. *)
Fixpoint mfold {A S} (body : S -> A -> M S) (l : list A) (acc : S) : M S :=
  match l with
  | [] => mret acc
  | x :: l' => call acc' <- body acc x ;> mfold body l' acc'
  end.

(* ------------------------------------------------------------------ *)
(** ** core.py *)

Definition newline : string := String (ascii_of_nat 10) EmptyString.

(** The three recognised keys, in the order of the loop of
    [get_package_config]. *)
Definition mode_keys : list (ModuleTreeBuildingMode * string) :=
  [ (IMPORT, "allowed_import_modules");
    (EXPORT, "allowed_export_modules");
    (BYPASS, "bypass_export_check_for_modules") ].

(** [build_path_from_import] *)
Definition build_path_from_import (module_import : string) (root_path : Path) : Path :=
  let module_path := Pathlib.of_string (PyStr.replace "." "/" module_import) in
  root_path // module_path.

(** [build_module_from_path] *)
Definition build_module_from_path (path : Path) (root_path : Path) : outcome string :=
  obind (Pathlib.relative_to path root_path) (fun rel =>
  Ret (PyStr.replace ".py" "" (PyStr.replace "/" "." (Pathlib.str rel)))).

(** The body of the loop of [get_package_config] for one key: the pair
    stored in [config.allowed[which]]. *)
Definition allow_entry (json_config : JSON) (name : string) : outcome (Trie * bool) :=
  obind (Json.get json_config name) (fun val =>
  match val with
  | JNull => Ret (MarisaTrie.Trie_of [], true)
  | _ =>
      (* Insert everything with trailing . *)
      obind (Json.dotted_items val) (fun modules =>
      Ret (MarisaTrie.Trie_of modules, false))
  end).

(** The loop of [get_package_config] over the keys still to do. *)
Fixpoint fill_allowed (json_config : JSON)
    (todo : list (ModuleTreeBuildingMode * string))
    (allowed : gmap ModuleTreeBuildingMode (Trie * bool))
    : outcome (gmap ModuleTreeBuildingMode (Trie * bool)) :=
  match todo with
  | [] => Ret allowed
  | (which, name) :: rest =>
      obind (allow_entry json_config name) (fun entry =>
      fill_allowed json_config rest (<[which := entry]> allowed))
  end.

(** [is_operation_allowed] *)
Definition is_operation_allowed (imported_module : string) (allow : Trie * bool) : bool :=
  if snd allow then
    (* Trie is empty *)
    true
  else
    (* Dot is appended since everything was added to the trie with dot postfix *)
    Nat.ltb 0 (List.length (MarisaTrie.prefixes (fst allow) (imported_module +:+ "."))).

Section Core.

(** [json.loads]: [None] stands for [JSONDecodeError].  The other ways
    in which the library can fail on a text (an integer with too many
    digits, nesting too deep) are not modelled. *)
Variable json_loads : string -> option JSON.

(** [repr] of a [str]. *)
Variable py_repr : string -> string.

(** [get_import_nodes]: the [from ... import] statements of a file. *)
Variable get_import_nodes : string -> outcome (list ImportFrom).

(** [str] of a list of [str]: the [repr] of each item between brackets. *)
Definition str_of_list (l : list string) : string :=
  "[" +:+ PyStr.join ", " (List.map py_repr l) +:+ "]".

(** The part of [get_package_config] that runs once the policy file is
    known to exist: read, parse, build the [Config], store it. *)
Definition load_config (fs : FileSystem) (potential_embargo_file : Path) : M (option Config) :=
  call text <- mlift (Fs.read_text fs potential_embargo_file) ;>
  call json_config <- mlift (match json_loads text with
                             | Some j => Ret j
                             | None => Raise JSONDecodeError
                             end) ;>
  call allowed <- mlift (fill_allowed json_config mode_keys ∅) ;>
  let config := mkConfig allowed (Pathlib.str potential_embargo_file) in
  fun config_lookup =>
    (Ret (Some config), <[Pathlib.str potential_embargo_file := config]> config_lookup).

(** [get_package_config]; [fuel] bounds the nested calls. *)
Fixpoint get_package_config (fuel : nat) (fs : FileSystem)
    (directory_path root_path : Path) : M (option Config) :=
  match fuel with
  | O => mlift OutOfFuel
  | S fuel' =>
      let potential_embargo_file := directory_path // Pathlib.of_string "__embargo__.json" in
      fun config_lookup =>
        match config_lookup !! Pathlib.str potential_embargo_file with
        | Some cached_config => (Ret (Some cached_config), config_lookup)
        | None =>
            if negb (Fs.exists_ fs potential_embargo_file) then
              if decide (directory_path = root_path) then (Ret None, config_lookup)
              else get_package_config fuel' fs (Pathlib.parent directory_path)
                                      root_path config_lookup
            else load_config fs potential_embargo_file config_lookup
        end
  end.

(** [is_local_import] *)
Definition is_local_import (fs : FileSystem) (module_import : ImportFrom) : bool :=
  match module module_import with
  | None => false
  | Some m =>
      let first_package := hd EmptyString (PyStr.split "." m) in
      Fs.is_dir fs (Pathlib.of_string first_package)
      || Fs.exists_ fs (Pathlib.of_string (first_package +:+ ".py"))
  end.

(** [config.allowed[mode]] *)
Definition allowed_at (config : Config) (mode : ModuleTreeBuildingMode) : outcome (Trie * bool) :=
  match allowed config !! mode with
  | Some entry => Ret entry
  | None => Raise KeyError
  end.

(** The lines appended once a violation is found. *)
Definition violation_lines (mode : ModuleTreeBuildingMode) (file : Path)
    (node_module : string) (config : Config) (entry : Trie * bool) : list string :=
  let human_readable_allowed := List.map PyStr.rstrip_dot (MarisaTrie.keys (fst entry)) in
  [ Pathlib.str file +:+ ": " +:+ node_module;
    (if decide (mode = EXPORT)
     then "Allowed exports: " +:+ str_of_list human_readable_allowed
     else "Allowed imports: " +:+ str_of_list human_readable_allowed);
    "Config file: " +:+ path config +:+ newline ].

(** The first branching of [check_for_allowed]: the path whose
    directory gives the policy. *)
Definition actual_path_of (mode : ModuleTreeBuildingMode) (file : Path)
    (app_root_path : Path) (node : ImportFrom) : outcome Path :=
  match mode with
  | EXPORT => Ret (build_path_from_import (default EmptyString (module node))
                                          app_root_path)
  | IMPORT => Ret file
  | BYPASS => Raise InvalidMode
  end.

(** [check_for_allowed] *)
Definition check_for_allowed (fuel : nat) (fs : FileSystem)
    (mode : ModuleTreeBuildingMode) (file : Path) (app_root_path : Path)
    (node : ImportFrom) : M (list string) :=
  call actual_path <- mlift (actual_path_of mode file app_root_path node) ;>
  call config <- get_package_config fuel fs (Pathlib.parent actual_path) app_root_path ;>
  match config with
  | None => mret []
  | Some config =>
      call entry <- mlift (allowed_at config mode) ;>
      match module node with
      | None => mret []
      | Some node_module =>
          call bypassed <-
            mlift (match mode with
                   | EXPORT =>
                       (* Bypass check *)
                       obind (build_module_from_path file app_root_path) (fun importer =>
                       obind (allowed_at config BYPASS) (fun bypass =>
                       (* Change bypass trie so that also when it is empty,
                          it does not allow all *)
                       Ret (is_operation_allowed importer (fst bypass, false))))
                   | _ => Ret false
                   end) ;>
          if bypassed : bool then mret []
          else
            call entry' <- mlift (allowed_at config mode) ;>
            if is_operation_allowed node_module entry' then mret []
            else mret (violation_lines mode file node_module config entry')
      end
  end.

(** The body of the loop of [check_for_violations]. *)
Definition check_node (fuel : nat) (fs : FileSystem) (filename app_root_path : Path)
    (acc : list string * list string) (node : ImportFrom) : M (list string * list string) :=
  call imp <- check_for_allowed fuel fs IMPORT filename app_root_path node ;>
  call exp <- check_for_allowed fuel fs EXPORT filename app_root_path node ;>
  mret ((fst acc ++ imp)%list, (snd acc ++ exp)%list).

(** [check_for_violations] *)
Definition check_for_violations (fuel : nat) (fs : FileSystem)
    (filename app_root_path : Path) : M (list string * list string) :=
  if negb (PyStr.endswith ".py" (Pathlib.str filename)) then mret ([], [])
  else
    call import_nodes <- mlift (get_import_nodes (Pathlib.str filename)) ;>
    let local_import_nodes := List.filter (is_local_import fs) import_nodes in
    mfold (check_node fuel fs filename app_root_path) local_import_nodes ([], []).

(** The loop of [main] over the files to check: the violations of both
    directions, accumulated. *)
Definition scan_files (fuel : nat) (fs : FileSystem) (app_root_path : Path)
    (filenames_to_check : list Path) (acc : list string * list string)
    : M (list string * list string) :=
  mfold (fun acc file =>
           call found <- check_for_violations fuel fs file app_root_path ;>
           mret ((fst acc ++ fst found)%list, (snd acc ++ snd found)%list))
        filenames_to_check acc.

(** [main] from the files to check on: the loop starts with an empty
    [config_lookup] and empty lists. *)
Definition main_loop (fuel : nat) (fs : FileSystem) (app_root_path : Path)
    (filenames_to_check : list Path) : outcome (list string * list string) :=
  fst (scan_files fuel fs app_root_path filenames_to_check ([], []) ∅).

(** The exit status of [main]: [exit(1)] when a violation was found. *)
Definition exit_status (found : list string * list string) : nat :=
  if Nat.ltb 0 (List.length (fst found) + List.length (snd found)) then 1%nat else 0%nat.

End Core.

(* ------------------------------------------------------------------ *)
(** ** Inputs of the scenarios *)

Module Scenario.

(** A double quote, and a word between double quotes. *)
Definition dquote : string := String (ascii_of_nat 34) EmptyString.
Definition quoted (s : string) : string := dquote +:+ s +:+ dquote.

(** [repr] of a [str] made of letters, digits, dots and underscores:
    the string between single quotes. *)
Definition repr_plain (s : string) : string := "'" +:+ s +:+ "'".

(** The application root and the files of the scenarios. *)
Definition app_root : Path := Pathlib.of_string "/app".
Definition other_py : Path := Pathlib.of_string "/app/pkg/other.py".
Definition worker_py : Path := Pathlib.of_string "/app/pkg/worker.py".
Definition pyth_py : Path := Pathlib.of_string "/app/pkg/pyth.py".
Definition pkg_policy : string := "/app/pkg/__embargo__.json".

(** [from pkg.db import conn] *)
Definition from_pkg_db : ImportFrom := mkImportFrom (Some "pkg.db").

(** Policy texts: an export list; the same with a bypass list; an
    import list that is [null]; text that is not JSON. *)
Definition text_export : string :=
  "{" +:+ quoted "allowed_export_modules" +:+ ": [" +:+ quoted "pkg.worker" +:+ "]}".
Definition text_export_bypass : string :=
  "{" +:+ quoted "allowed_export_modules" +:+ ": [" +:+ quoted "pkg.worker" +:+ "], "
      +:+ quoted "bypass_export_check_for_modules" +:+ ": [" +:+ quoted "pkg.other" +:+ "]}".
Definition text_import_null : string :=
  "{" +:+ quoted "allowed_import_modules" +:+ ": null}".
Definition text_import_empty : string :=
  "{" +:+ quoted "allowed_import_modules" +:+ ": []}".

Definition json_export : JSON :=
  JObj [("allowed_export_modules", JArr [JStr "pkg.worker"])].
Definition json_export_bypass : JSON :=
  JObj [("allowed_export_modules", JArr [JStr "pkg.worker"]);
        ("bypass_export_check_for_modules", JArr [JStr "pkg.other"])].
Definition json_import_null : JSON := JObj [("allowed_import_modules", JNull)].
Definition json_import_empty : JSON := JObj [("allowed_import_modules", JArr [])].

(** [json.loads] on the texts above. *)
Definition loads (text : string) : option JSON :=
  if String.eqb text text_export then Some json_export
  else if String.eqb text text_export_bypass then Some json_export_bypass
  else if String.eqb text text_import_null then Some json_import_null
  else if String.eqb text text_import_empty then Some json_import_empty
  else None.

(** A tree whose only policy file is [pkg/__embargo__.json], holding
    [text]. *)
Definition fs_with (text : string) : FileSystem :=
  fun p => if String.eqb p pkg_policy then Some (RegularFile (Some text))
           else if String.eqb p "/app" then Some Directory
           else if String.eqb p "/app/pkg" then Some Directory
           else if String.eqb p "pkg" then Some Directory
           else None.

(** A tree without any policy file. *)
Definition fs_bare : FileSystem :=
  fun p => if String.eqb p "/app" then Some Directory
           else if String.eqb p "/app/pkg" then Some Directory
           else if String.eqb p "pkg" then Some Directory
           else None.

(** A disk with nothing on it. *)
Definition fs_empty : FileSystem := fun _ => None.

(** A directory outside the application root. *)
Definition elsewhere : Path := Pathlib.of_string "/srv/lib".

(** The directory [pkg] of the application and its policy file. *)
Definition pkg_dir : Path := Pathlib.of_string "/app/pkg".
Definition pkg_policy_path : Path := Pathlib.of_string pkg_policy.

(** The [Config]s that [get_package_config] builds from [text_export],
    [text_export_bypass] and [text_import_empty]. *)
Definition config_export : Config :=
  mkConfig (<[BYPASS := (MarisaTrie.Trie_of [], true)]>
            (<[EXPORT := (MarisaTrie.Trie_of ["pkg.worker."], false)]>
             (<[IMPORT := (MarisaTrie.Trie_of [], true)]> ∅)))
           pkg_policy.
Definition config_export_bypass : Config :=
  mkConfig (<[BYPASS := (MarisaTrie.Trie_of ["pkg.other."], false)]>
            (<[EXPORT := (MarisaTrie.Trie_of ["pkg.worker."], false)]>
             (<[IMPORT := (MarisaTrie.Trie_of [], true)]> ∅)))
           pkg_policy.
Definition config_import_empty : Config :=
  mkConfig (<[BYPASS := (MarisaTrie.Trie_of [], true)]>
            (<[EXPORT := (MarisaTrie.Trie_of [], true)]>
             (<[IMPORT := (MarisaTrie.Trie_of [], false)]> ∅)))
           pkg_policy.

(** Every source file of the scenarios holds the one statement
    [from pkg.db import conn]. *)
Definition one_import (filename : string) : outcome (list ImportFrom) :=
  Ret [from_pkg_db].

End Scenario.

(* ------------------------------------------------------------------ *)
(** ** The specification's reading of the path-to-module translation *)

(** Follows the words of the specification: the path relative to root,
    separators replaced with dots, the source-file suffix stripped from
    the end.  It is compared with [build_module_from_path]. *)
Definition strip_py_suffix (s : string) : string :=
  if PyStr.endswith ".py" s
  then String.rev (PyStr.drop_chars 3 (String.rev s))
  else s.

Definition dotted_module_name (path : Path) (root_path : Path) : outcome string :=
  obind (Pathlib.relative_to path root_path) (fun rel =>
  Ret (strip_py_suffix (PyStr.replace "/" "." (Pathlib.str rel)))).

(* ------------------------------------------------------------------ *)
(** ** Directories and their ancestors *)

(** The directory reached from [root] by going down along [suffix]. *)
Definition descend (root : Path) (suffix : list string) : Path :=
  mkPath (anchor root) (components root ++ suffix).

(** [dir] is [root] or lies below it: [dir.relative_to(root)] succeeds. *)
Definition at_or_below (dir root : Path) : bool :=
  is_Ret (Pathlib.relative_to dir root).

(** [p.parent] taken [n] times. *)
Fixpoint nth_parent (n : nat) (p : Path) : Path :=
  match n with
  | O => p
  | S n' => nth_parent n' (Pathlib.parent p)
  end.

(** The key of [config_lookup], and the path on disk, of the policy file
    of a directory. *)
Definition policy_file (directory_path : Path) : string :=
  Pathlib.str (directory_path // Pathlib.of_string "__embargo__.json").

(** Two file systems with the same existing paths (their contents may
    differ). *)
Definition same_paths (fs fs' : FileSystem) : Prop :=
  forall p, fs p = None <-> fs' p = None.

(** The policy file at [key] exists but gives no policy: it is a
    directory, it cannot be read, or its text is not JSON. *)
Definition unusable_policy (json_loads : string -> option JSON)
    (fs : FileSystem) (key : string) : Prop :=
  match fs key with
  | None => False
  | Some Directory => True
  | Some (RegularFile None) => True
  | Some (RegularFile (Some text)) => json_loads text = None
  end.

(** Every entry of the lookup table stands for a policy file that could
    be read and parsed: what holds of the empty table and is kept by
    every call. *)
Definition lookup_from_disk (json_loads : string -> option JSON)
    (fs : FileSystem) (lk : gmap string Config) : Prop :=
  forall key c, lk !! key = Some c ->
    exists text json_config,
      fs key = Some (RegularFile (Some text)) /\ json_loads text = Some json_config.

(* ------------------------------------------------------------------ *)
(** ** core.py: the files to check *)

(** [IGNORE_LIST], a set of directory names. *)
Definition IGNORE_LIST : list string :=
  ["__pycache__"; ".mypy_cache"; ".DS_Store"; ".ruff_cache"].

(** [dir_name in IGNORE_LIST] *)
Definition in_ignore_list (dir_name : string) : bool :=
  existsb (String.eqb dir_name) IGNORE_LIST.

(** [p.parts]: the anchor, when there is one, then the components. *)
Definition path_parts (p : Path) : list string :=
  match anchor p with
  | Relative => components p
  | a => Pathlib.anchor_str a :: components p
  end.

(** [p.is_file()]: a regular file, readable or not. *)
Definition is_file (fs : FileSystem) (p : Path) : bool :=
  match fs (Pathlib.str p) with
  | Some (RegularFile _) => true
  | _ => false
  end.

Section Discovery.

(** [path.rglob(pattern)]: the walk of the tree below [path], done by
    the library. *)
Variable rglob : Path -> string -> list Path.

(** The body of the loop of [get_filenames_to_check]. *)
Definition collect_filename (fs : FileSystem) (app_root_path : Path)
    (all_files : list Path) (filename : string) : list Path :=
  let path := app_root_path // Pathlib.of_string filename in
  if is_file fs path then all_files ++ [path]
  else
    all_files
    ++ List.filter (fun path => negb (existsb in_ignore_list (path_parts path)))
                   (rglob path "*.py").

(** [get_filenames_to_check] *)
Definition get_filenames_to_check (fs : FileSystem) (filenames : list string)
    (app_root_path : Path) : list Path :=
  fold_left (collect_filename fs app_root_path) filenames [].

End Discovery.

(* ------------------------------------------------------------------ *)
(** ** Notions used in the statements *)

(** [sub in s] *)
Fixpoint str_contains (sub s : string) : bool :=
  PyStr.startswith sub s
  || match s with
     | EmptyString => false
     | String _ s' => str_contains sub s'
     end.

(** A value that the loop of [get_package_config] can turn into a list
    of prefixes: [null], a string, an object, or a list of strings. *)
Definition is_JStr (x : JSON) : bool :=
  match x with JStr _ => true | _ => false end.

Definition well_shaped (val : JSON) : bool :=
  match val with
  | JNull | JStr _ | JObj _ => true
  | JArr items => forallb is_JStr items
  | JBool _ | JNum _ => false
  end.

(** A [Config] with an entry for each of the three modes. *)
Definition config_complete (c : Config) : Prop :=
  forall mode, is_Some (allowed c !! mode).

(** Every entry of the lookup table is complete and is stored under its
    own [path]. *)
Definition lookup_wf (lk : gmap string Config) : Prop :=
  forall key c, lk !! key = Some c -> path c = key /\ config_complete c.

(** A module name whose first character is neither a dot nor a slash. *)
Definition plain_start (m : string) : bool :=
  match m with
  | EmptyString => false
  | String c _ => negb (Ascii.eqb c ".") && negb (Ascii.eqb c "/")
  end.

(* ------------------------------------------------------------------ *)
(** ** Further inputs *)

Module Cases.

(** A [Config] whose import list is [pkg.api], as built from
    [{allowed_import_modules: [pkg.api]}] next to [pkg/worker.py]. *)
Definition api_items : list (string * JSON) :=
  [("allowed_import_modules", JArr [JStr "pkg.api"])].
Definition config_import_api : Config :=
  mkConfig (<[BYPASS := (MarisaTrie.Trie_of [], true)]>
            (<[EXPORT := (MarisaTrie.Trie_of [], true)]>
             (<[IMPORT := (MarisaTrie.Trie_of ["pkg.api."], false)]> ∅)))
           Scenario.pkg_policy.

(** A policy next to [pkg/db.py] that exports [pkg.worker] and exempts
    the importer [pkg.pyth]; [json.loads] on its text. *)
Definition text_bypass_pyth : string :=
  "{" +:+ Scenario.quoted "allowed_export_modules" +:+ ": ["
      +:+ Scenario.quoted "pkg.worker" +:+ "], "
      +:+ Scenario.quoted "bypass_export_check_for_modules" +:+ ": ["
      +:+ Scenario.quoted "pkg.pyth" +:+ "]}".
Definition json_bypass_pyth : JSON :=
  JObj [("allowed_export_modules", JArr [JStr "pkg.worker"]);
        ("bypass_export_check_for_modules", JArr [JStr "pkg.pyth"])].
Definition loads_pyth (text : string) : option JSON :=
  if String.eqb text text_bypass_pyth then Some json_bypass_pyth else None.

(** [from . import conn]: a statement without a module. *)
Definition relative_import : ImportFrom := mkImportFrom None.

(** A directory below [pkg]. *)
Definition sub_dir : Path := Pathlib.of_string "/app/pkg/sub".

(** An application root inside a directory named [__pycache__], holding
    the file [main.py]; a walk that finds [mod.py] wherever it starts. *)
Definition cached_root : Path := Pathlib.of_string "/srv/__pycache__/app".
Definition fs_main : FileSystem :=
  fun p => if String.eqb p "/srv/__pycache__/app/main.py"
           then Some (RegularFile (Some EmptyString))
           else None.
Definition rglob_mod (path : Path) (pattern : string) : list Path :=
  [descend path ["mod.py"]].

End Cases.

(* ------------------------------------------------------------------ *)
(** * Properties *)

Local Open Scope list_scope.

#[local] Arguments Ascii.eqb : simpl never.
#[local] Arguments String.eqb : simpl never.

(** ** Strings and tries *)

Lemma startswith_nil_r (p : string) :
  PyStr.startswith p EmptyString = true -> p = EmptyString.
Proof. by destruct p. Qed.

Lemma startswith_refl (s : string) : PyStr.startswith s s = true.
Proof. induction s as [|a s IH]; simpl; [done|]. by rewrite Ascii.eqb_refl. Qed.

Lemma startswith_app (p r : string) : PyStr.startswith p (p +:+ r) = true.
Proof. induction p as [|a p IH]; simpl; [done|]. by rewrite Ascii.eqb_refl. Qed.

Lemma startswith_inv (p s : string) :
  PyStr.startswith p s = true -> exists r, s = p +:+ r.
Proof.
  revert s. induction p as [|a p IH]; intros s H; simpl in *.
  - by exists s.
  - destruct s as [|b s]; [done|].
    destruct (Ascii.eqb_spec a b) as [->|]; [|done].
    destruct (IH _ H) as [r ->]. by exists r.
Qed.

(** A stored ["p."] is a prefix of the query ["c."] exactly when [c] is
    [p] or goes on after ["p."]. *)
Lemma startswith_dotted (p c : string) :
  PyStr.startswith (p +:+ ".") (c +:+ ".") = true
  <-> c = p \/ PyStr.startswith (p +:+ ".") c = true.
Proof.
  revert c. induction p as [|x p IH]; intros c.
  - destruct c as [|a c]; simpl.
    + split; [by left | done].
    + destruct (Ascii.eqb "." a).
      * split; [by right | done].
      * split; [done | by intros [|]].
  - destruct c as [|a c]; simpl.
    + split.
      * destruct (Ascii.eqb x "."); [|done].
        intros H. apply startswith_nil_r in H. by destruct p.
      * intros [|]; done.
    + destruct (Ascii.eqb_spec x a) as [->|Hne].
      * rewrite IH. split; (intros [H|H]; [left | by right]); congruence.
      * split; [done|]. intros [H|H]; congruence.
Qed.

Lemma dedup_singleton (k : string) : MarisaTrie.dedup [k] = [k].
Proof. reflexivity. Qed.

(** The query against a restricted trie with one key. *)
Lemma is_operation_allowed_singleton (k c : string) :
  is_operation_allowed c (MarisaTrie.Trie_of [k], false)
  = PyStr.startswith k (c +:+ ".").
Proof.
  unfold is_operation_allowed, MarisaTrie.prefixes, MarisaTrie.Trie_of; simpl.
  by destruct (PyStr.startswith k (c +:+ ".")).
Qed.

(** A trie without keys that is not flagged matches nothing. *)
Lemma is_operation_allowed_no_keys (c : string) :
  is_operation_allowed c (MarisaTrie.Trie_of [], false) = false.
Proof. reflexivity. Qed.

(** A flagged entry matches everything. *)
Lemma is_operation_allowed_flagged (c : string) (t : Trie) :
  is_operation_allowed c (t, true) = true.
Proof. reflexivity. Qed.

(** C3: the restricted set built for the one-element list [[p]] accepts
    a candidate [c] if and only if [c] is [p] or [c] starts with [p]
    followed by a dot; a stored ["a.b"] accepts ["a.b"] and ["a.b.c"] and
    rejects ["a.bc"], ["b"] and ["a.c"]. *)
Theorem single_prefix_segment_aligned :
  (forall (name p c : string),
      exists allow,
        allow_entry (JObj [(name, JArr [JStr p])]) name = Ret allow
        /\ allow = (MarisaTrie.Trie_of [p +:+ "."], false)
        /\ (is_operation_allowed c allow = true
            <-> c = p \/ PyStr.startswith (p +:+ ".") c = true))
  /\ (let allow := (MarisaTrie.Trie_of ["a.b" +:+ "."], false) in
      is_operation_allowed "a.b" allow = true
      /\ is_operation_allowed "a.b.c" allow = true
      /\ is_operation_allowed "a.bc" allow = false
      /\ is_operation_allowed "b" allow = false
      /\ is_operation_allowed "a.c" allow = false).
Proof.
  split.
  - intros name p c. eexists. split; [|split; [reflexivity|]].
    + unfold allow_entry; simpl. by rewrite String.eqb_refl.
    + rewrite is_operation_allowed_singleton. apply startswith_dotted.
  - by vm_compute.
Qed.

(** ** Paths *)

Lemma strip_prefix_app (pre rest : list string) :
  Pathlib.strip_prefix pre (pre ++ rest) = Some rest.
Proof. induction pre as [|a pre IH]; simpl; [done|]. by rewrite String.eqb_refl. Qed.

Lemma strip_prefix_inv (pre l rest : list string) :
  Pathlib.strip_prefix pre l = Some rest -> l = pre ++ rest.
Proof.
  revert l. induction pre as [|a pre IH]; intros l H; simpl in *.
  - congruence.
  - destruct l as [|b l]; [done|].
    destruct (String.eqb_spec a b) as [->|]; [|done].
    by rewrite (IH _ H).
Qed.

Lemma relative_to_descend (root : Path) (suffix : list string) :
  Pathlib.relative_to (descend root suffix) root = Ret (mkPath Relative suffix).
Proof.
  unfold Pathlib.relative_to, descend; simpl.
  rewrite decide_True by done. by rewrite strip_prefix_app.
Qed.

Lemma relative_to_inv (dir root rel : Path) :
  Pathlib.relative_to dir root = Ret rel ->
  dir = descend root (components rel) /\ anchor rel = Relative.
Proof.
  unfold Pathlib.relative_to, descend. destruct dir as [a cs]; simpl.
  case_decide as Ha; [|done].
  destruct (Pathlib.strip_prefix (components root) cs) as [rest|] eqn:E; [|done].
  intros [= <-]; simpl. apply strip_prefix_inv in E. by subst.
Qed.

Lemma at_or_below_descend (dir root : Path) :
  at_or_below dir root = true <-> exists suffix, dir = descend root suffix.
Proof.
  unfold at_or_below. split.
  - destruct (Pathlib.relative_to dir root) as [rel| |] eqn:E; [|done..].
    intros _. apply relative_to_inv in E as [-> _]. by eexists.
  - intros [suffix ->]. by rewrite relative_to_descend.
Qed.

Lemma descend_nil (d : Path) : descend d [] = d.
Proof. destruct d as [a cs]. unfold descend; simpl. by rewrite app_nil_r. Qed.

Lemma descend_app (d : Path) (s t : list string) :
  descend (descend d s) t = descend d (s ++ t).
Proof. unfold descend; simpl. by rewrite app_assoc. Qed.

Lemma descend_inj (d : Path) (s t : list string) :
  descend d s = descend d t -> s = t.
Proof. unfold descend. intros [= H]. by apply app_inv_head in H. Qed.

Lemma parent_descend_snoc (d : Path) (s : list string) (x : string) :
  Pathlib.parent (descend d (s ++ [x])) = descend d s.
Proof.
  unfold Pathlib.parent, descend; simpl.
  by rewrite app_assoc, removelast_last.
Qed.

(** Above a directory that is not below [root] there is no directory
    below [root] either. *)
Lemma parent_not_below (dir root : Path) :
  at_or_below dir root = false -> at_or_below (Pathlib.parent dir) root = false.
Proof.
  intros H. apply not_true_is_false. intros Hp.
  apply at_or_below_descend in Hp as [suffix Hp].
  assert (at_or_below dir root = true) as Hd; [|congruence].
  apply at_or_below_descend.
  destruct dir as [a cs]. unfold Pathlib.parent, descend in *; simpl in *.
  injection Hp as -> Hcs.
  destruct cs as [|c cs'] using rev_ind.
  - exists suffix. by rewrite <- Hcs.
  - rewrite removelast_last in Hcs. exists (suffix ++ [c]).
    by rewrite Hcs, app_assoc.
Qed.

Lemma not_below_ne_root (dir root : Path) :
  at_or_below dir root = false -> dir <> root.
Proof.
  intros H ->. assert (at_or_below root root = true); [|congruence].
  apply at_or_below_descend. exists []. by rewrite descend_nil.
Qed.

(** ** Policy resolution *)

Section Resolution.

Variable json_loads : string -> option JSON.
Variable fs : FileSystem.

#[local] Abbreviation resolve := (get_package_config json_loads).

Lemma exists_policy_file (dir : Path) :
  Fs.exists_ fs (dir // Pathlib.of_string "__embargo__.json") = false
  <-> fs (policy_file dir) = None.
Proof. unfold Fs.exists_, policy_file. by destruct (fs _). Qed.

Lemma resolve_cached (fuel : nat) (dir root : Path) (lk : gmap string Config) (c : Config) :
  lk !! policy_file dir = Some c ->
  resolve (S fuel) fs dir root lk = (Ret (Some c), lk).
Proof. intros H. simpl. unfold policy_file in H. by rewrite H. Qed.

Lemma resolve_absent_root (fuel : nat) (root : Path) (lk : gmap string Config) :
  lk !! policy_file root = None -> fs (policy_file root) = None ->
  resolve (S fuel) fs root root lk = (Ret None, lk).
Proof.
  intros Hlk Hfs. apply exists_policy_file in Hfs. simpl.
  unfold policy_file in Hlk. rewrite Hlk, Hfs; simpl. by rewrite decide_True.
Qed.

Lemma resolve_absent_up (fuel : nat) (dir root : Path) (lk : gmap string Config) :
  lk !! policy_file dir = None -> fs (policy_file dir) = None -> dir <> root ->
  resolve (S fuel) fs dir root lk = resolve fuel fs (Pathlib.parent dir) root lk.
Proof.
  intros Hlk Hfs Hne. apply exists_policy_file in Hfs. simpl.
  unfold policy_file in Hlk. rewrite Hlk, Hfs; simpl. by rewrite decide_False.
Qed.

Lemma resolve_present (fuel : nat) (dir root : Path) (lk : gmap string Config) :
  lk !! policy_file dir = None -> fs (policy_file dir) <> None ->
  resolve (S fuel) fs dir root lk
  = load_config json_loads fs (dir // Pathlib.of_string "__embargo__.json") lk.
Proof.
  intros Hlk Hfs. simpl. unfold policy_file in Hlk. rewrite Hlk.
  destruct (Fs.exists_ fs _) eqn:E; [done|].
  by apply exists_policy_file in E.
Qed.

(** What [load_config] does, case by case. *)
Lemma load_config_cases (file : Path) (lk : gmap string Config) :
  load_config json_loads fs file lk =
  match Fs.read_text fs file with
  | Ret text =>
      match json_loads text with
      | Some json_config =>
          match fill_allowed json_config mode_keys ∅ with
          | Ret allowed =>
              (Ret (Some (mkConfig allowed (Pathlib.str file))),
               <[Pathlib.str file := mkConfig allowed (Pathlib.str file)]> lk)
          | Raise e => (Raise e, lk)
          | OutOfFuel => (OutOfFuel, lk)
          end
      | None => (Raise JSONDecodeError, lk)
      end
  | Raise e => (Raise e, lk)
  | OutOfFuel => (OutOfFuel, lk)
  end.
Proof.
  unfold load_config, mbind, mlift.
  destruct (Fs.read_text fs file) as [text| |]; [|done..].
  destruct (json_loads text) as [j|]; [|done].
  by destruct (fill_allowed j mode_keys ∅).
Qed.

(** The lookup table after a call is the one before it, or that one
    with the policy file just loaded, a file that exists. *)
Lemma resolve_lookup_after (fuel : nat) (dir root : Path) (lk : gmap string Config) :
  snd (resolve fuel fs dir root lk) = lk
  \/ exists key c, fs key <> None /\ lk !! key = None
                   /\ fst (resolve fuel fs dir root lk) = Ret (Some c)
                   /\ snd (resolve fuel fs dir root lk) = <[key := c]> lk.
Proof.
  revert dir. induction fuel as [|fuel IH]; intros dir; [by left|].
  destruct (lk !! policy_file dir) as [c|] eqn:Hlk.
  { rewrite (resolve_cached _ _ _ _ _ Hlk). by left. }
  destruct (fs (policy_file dir)) as [node|] eqn:Hfs.
  - rewrite resolve_present by (done || congruence).
    rewrite load_config_cases.
    destruct (Fs.read_text fs _) as [text| |]; [|by left..].
    destruct (json_loads text) as [j|]; [|by left].
    destruct (fill_allowed j mode_keys ∅) as [al| |]; [|by left..].
    right. exists (policy_file dir). eexists. simpl.
    repeat split; try done. congruence.
  - destruct (decide (dir = root)) as [->|Hne].
    + rewrite resolve_absent_root by done. by left.
    + rewrite resolve_absent_up by done. apply IH.
Qed.

(** Going up through directories that have no policy file, no entry in
    the lookup table, and are not the root. *)
Lemma resolve_walk_up (suffix : list string) (fuel : nat) (d root : Path)
    (lk : gmap string Config) :
  (forall k, 0 < k <= length suffix ->
     fs (policy_file (descend d (take k suffix))) = None
     /\ lk !! policy_file (descend d (take k suffix)) = None
     /\ descend d (take k suffix) <> root) ->
  resolve (length suffix + fuel) fs (descend d suffix) root lk
  = resolve fuel fs d root lk.
Proof.
  induction suffix as [|x s IH] using rev_ind; intros H.
  - by rewrite descend_nil.
  - assert (length (s ++ [x]) = length s + 1) as Hlen
      by (rewrite length_app; simpl; lia).
    rewrite Hlen in *.
    replace (length s + 1 + fuel) with (S (length s + fuel)) by lia.
    destruct (H (length s + 1)) as (Hfs & Hlk & Hne); [lia|].
    rewrite take_ge in Hfs, Hlk, Hne by lia.
    rewrite resolve_absent_up by done.
    rewrite parent_descend_snoc. apply IH.
    intros k Hk. specialize (H k). rewrite take_app_le in H by lia.
    apply H. lia.
Qed.

(** More fuel does not change a call that had enough. *)
Lemma resolve_fuel_mono (fuel : nat) (dir root : Path) (lk : gmap string Config) :
  fst (resolve fuel fs dir root lk) <> OutOfFuel ->
  forall more, resolve (fuel + more) fs dir root lk = resolve fuel fs dir root lk.
Proof.
  revert dir. induction fuel as [|fuel IH]; intros dir H more; [done|].
  replace (S fuel + more) with (S (fuel + more)) by lia.
  destruct (lk !! policy_file dir) as [c|] eqn:Hlk.
  { by rewrite !(resolve_cached _ _ _ _ _ Hlk). }
  destruct (fs (policy_file dir)) as [node|] eqn:Hfs.
  - by rewrite !resolve_present by (done || congruence).
  - destruct (decide (dir = root)) as [->|Hne].
    + by rewrite !resolve_absent_root.
    + rewrite resolve_absent_up in H by done.
      rewrite !resolve_absent_up by done. by apply IH.
Qed.

End Resolution.

Lemma fill_allowed_cons (json_config : JSON) (which : ModuleTreeBuildingMode)
    (name : string) (rest : list (ModuleTreeBuildingMode * string))
    (acc : gmap ModuleTreeBuildingMode (Trie * bool)) :
  fill_allowed json_config ((which, name) :: rest) acc
  = obind (allow_entry json_config name) (fun entry =>
    fill_allowed json_config rest (<[which := entry]> acc)).
Proof. reflexivity. Qed.

#[local] Arguments fill_allowed : simpl never.

(** Building a [Config] needs no fuel. *)
Lemma omap_add_dot_fuel (items : list JSON) : omap Json.add_dot items <> OutOfFuel.
Proof.
  induction items as [|x items IH]; simpl; [done|].
  destruct x; simpl; try done.
  by destruct (omap Json.add_dot items).
Qed.

Lemma allow_entry_fuel (json_config : JSON) (name : string) :
  allow_entry json_config name <> OutOfFuel.
Proof.
  unfold allow_entry. destruct json_config; simpl; try done.
  destruct (Json.dict_get items name) as [| | | |l|l]; simpl; try done.
  pose proof (omap_add_dot_fuel l). destruct (omap Json.add_dot l); simpl; congruence.
Qed.

Lemma fill_allowed_fuel (json_config : JSON) (todo : list (ModuleTreeBuildingMode * string))
    (acc : gmap ModuleTreeBuildingMode (Trie * bool)) :
  fill_allowed json_config todo acc <> OutOfFuel.
Proof.
  revert acc. induction todo as [|[which name] todo IH]; intros acc; [done|].
  rewrite fill_allowed_cons.
  pose proof (allow_entry_fuel json_config name).
  destruct (allow_entry json_config name); simpl; [apply IH | done | done].
Qed.

Lemma load_config_fuel (json_loads : string -> option JSON) (fs : FileSystem)
    (file : Path) (lk : gmap string Config) :
  fst (load_config json_loads fs file lk) <> OutOfFuel.
Proof.
  rewrite load_config_cases. unfold Fs.read_text.
  destruct (fs (Pathlib.str file)) as [[|[text|]]|]; simpl; try done.
  destruct (json_loads text) as [j|]; simpl; [|done].
  pose proof (fill_allowed_fuel j mode_keys ∅).
  destruct (fill_allowed j mode_keys ∅); simpl; congruence.
Qed.

(** From a directory [suffix] below the root, one call per component of
    [suffix] and one more are enough. *)
Lemma resolve_below_root_returns (json_loads : string -> option JSON) (fs : FileSystem)
    (root : Path) (lk : gmap string Config) (suffix : list string) (fuel : nat) :
  length suffix < fuel ->
  fst (get_package_config json_loads fuel fs (descend root suffix) root lk) <> OutOfFuel.
Proof.
  revert fuel. induction suffix as [|x s IH] using rev_ind; intros fuel Hlen.
  - destruct fuel as [|fuel]; [simpl in Hlen; lia|].
    rewrite descend_nil.
    destruct (lk !! policy_file root) as [c|] eqn:Hlk.
    { by rewrite (resolve_cached _ _ _ _ _ _ _ Hlk). }
    destruct (fs (policy_file root)) as [node|] eqn:Hfs.
    + rewrite resolve_present by (done || congruence). apply load_config_fuel.
    + by rewrite resolve_absent_root.
  - rewrite length_app in Hlen; simpl in Hlen.
    destruct fuel as [|fuel]; [lia|].
    set (dir := descend root (s ++ [x])).
    destruct (lk !! policy_file dir) as [c|] eqn:Hlk.
    { by rewrite (resolve_cached _ _ _ _ _ _ _ Hlk). }
    destruct (fs (policy_file dir)) as [node|] eqn:Hfs.
    + rewrite resolve_present by (done || congruence). apply load_config_fuel.
    + destruct (decide (dir = root)) as [Heq|Hne].
      * rewrite Heq. rewrite Heq in Hlk, Hfs. by rewrite resolve_absent_root.
      * rewrite resolve_absent_up by done.
        unfold dir. rewrite parent_descend_snoc. apply IH. lia.
Qed.

(** C7: a directory at or below the root such that no directory from it
    up to the root has a policy file or an entry in the lookup table
    resolves to [None], and the lookup table is left as it was.  Only the
    directories from the queried one up to the root are constrained: what
    lies above the root, or elsewhere, has no part in the result. *)
Theorem no_policy_up_to_root_resolves_to_None
    (json_loads : string -> option JSON) (fs : FileSystem)
    (dir root rel : Path) (lk : gmap string Config) (fuel : nat) :
  Pathlib.relative_to dir root = Ret rel ->
  (forall k, k <= length (components rel) ->
     fs (policy_file (descend root (take k (components rel)))) = None
     /\ lk !! policy_file (descend root (take k (components rel))) = None) ->
  length (components rel) < fuel ->
  get_package_config json_loads fuel fs dir root lk = (Ret None, lk).
Proof.
  intros Hrel Hnone Hfuel.
  apply relative_to_inv in Hrel as [-> _].
  set (suffix := components rel) in *.
  replace fuel with (length suffix + S (fuel - length suffix - 1)) by lia.
  rewrite resolve_walk_up.
  - destruct (Hnone 0) as [Hfs Hlk]; [lia|].
    rewrite take_0, descend_nil in Hfs, Hlk.
    by apply resolve_absent_root.
  - intros k Hk. destruct (Hnone k) as [Hfs Hlk]; [lia|].
    repeat split; try done.
    intros Heq. rewrite <- (descend_nil root) in Heq at 2.
    apply descend_inj in Heq.
    apply (f_equal length) in Heq. rewrite length_take in Heq. simpl in Heq. lia.
Qed.

(** C10: from a directory at or below the root the recursion returns,
    within one call per component below the root and one more; from a
    directory that is not at or below the root, with no policy file and
    no lookup entry on its chain of parents, no number of nested calls
    reaches the base case. *)
Theorem resolution_returns_exactly_below_root
    (json_loads : string -> option JSON) (fs : FileSystem)
    (dir root : Path) (lk : gmap string Config) :
  (forall rel, Pathlib.relative_to dir root = Ret rel ->
     forall fuel, length (components rel) < fuel ->
       fst (get_package_config json_loads fuel fs dir root lk) <> OutOfFuel)
  /\ (at_or_below dir root = false ->
      (forall n, fs (policy_file (nth_parent n dir)) = None
                 /\ lk !! policy_file (nth_parent n dir) = None) ->
      forall fuel, get_package_config json_loads fuel fs dir root lk = (OutOfFuel, lk)).
Proof.
  split.
  - intros rel Hrel fuel Hfuel. apply relative_to_inv in Hrel as [-> _].
    by apply resolve_below_root_returns.
  - intros Hout Hnone fuel. revert dir Hout Hnone.
    induction fuel as [|fuel IH]; intros dir Hout Hnone; [done|].
    destruct (Hnone 0) as [Hfs Hlk]; simpl in Hfs, Hlk.
    rewrite resolve_absent_up by (done || by apply not_below_ne_root).
    apply IH; [by apply parent_not_below|].
    intros n. apply (Hnone (S n)).
Qed.

Lemma same_paths_policy (fs fs' : FileSystem) (dir : Path) :
  same_paths fs fs' ->
  (fs (policy_file dir) = None <-> fs' (policy_file dir) = None).
Proof. intros H. apply H. Qed.

(** A returned [Config] sits in the lookup table under the policy file
    of the queried directory or of one of its parents. *)
Lemma resolve_result_cached (json_loads : string -> option JSON) (fs : FileSystem)
    (fuel : nat) (dir root : Path) (lk lk' : gmap string Config) (c : Config) :
  get_package_config json_loads fuel fs dir root lk = (Ret (Some c), lk') ->
  exists n, lk' !! policy_file (nth_parent n dir) = Some c.
Proof.
  revert dir. induction fuel as [|fuel IH]; intros dir H; [done|].
  destruct (lk !! policy_file dir) as [c0|] eqn:Hlk.
  { rewrite (resolve_cached _ _ _ _ _ _ _ Hlk) in H.
    injection H as -> <-. by exists 0. }
  destruct (fs (policy_file dir)) as [node|] eqn:Hfs.
  - rewrite resolve_present, load_config_cases in H by (done || congruence).
    destruct (Fs.read_text fs _) as [text| |]; [|done..].
    destruct (json_loads text) as [j|]; [|done].
    destruct (fill_allowed j mode_keys ∅) as [al| |]; [|done..].
    injection H as <- <-. exists 0. apply lookup_insert_eq.
  - destruct (decide (dir = root)) as [->|Hne].
    + by rewrite resolve_absent_root in H.
    + rewrite resolve_absent_up in H by done.
      destruct (IH _ H) as [n Hn]. by exists (S n).
Qed.

(** The second of two calls finds what the first one left. *)
Lemma resolve_again (json_loads json_loads' : string -> option JSON)
    (fs fs' : FileSystem) (fuel : nat) (dir root : Path)
    (lk lk' : gmap string Config) (r : option Config) :
  same_paths fs fs' ->
  get_package_config json_loads fuel fs dir root lk = (Ret r, lk') ->
  get_package_config json_loads' fuel fs' dir root lk' = (Ret r, lk').
Proof.
  intros Hsame. revert dir. induction fuel as [|fuel IH]; intros dir H; [done|].
  destruct (lk !! policy_file dir) as [c0|] eqn:Hlk.
  { rewrite (resolve_cached _ _ _ _ _ _ _ Hlk) in H.
    injection H as <- <-. by apply resolve_cached. }
  destruct (fs (policy_file dir)) as [node|] eqn:Hfs.
  - rewrite resolve_present, load_config_cases in H by (done || congruence).
    destruct (Fs.read_text fs _) as [text| |]; [|done..].
    destruct (json_loads text) as [j|]; [|done].
    destruct (fill_allowed j mode_keys ∅) as [al| |]; [|done..].
    injection H as <- <-. apply resolve_cached. apply lookup_insert_eq.
  - assert (fs' (policy_file dir) = None) as Hfs' by by apply (Hsame (policy_file dir)).
    assert (lk' !! policy_file dir = None) as Hlk'.
    { pose proof (resolve_lookup_after json_loads fs (S fuel) dir root lk) as Hafter.
      rewrite H in Hafter; simpl in Hafter.
      destruct Hafter as [->|(key & c & Hkey & _ & _ & ->)]; [done|].
      rewrite lookup_insert_ne; [done|]. congruence. }
    destruct (decide (dir = root)) as [->|Hne].
    + rewrite resolve_absent_root in H by done. injection H as <- <-.
      by apply resolve_absent_root.
    + rewrite resolve_absent_up in H by done.
      rewrite resolve_absent_up by done. by apply IH.
Qed.

(** C8: when a call returns, a second call with the lookup table that
    the first one left returns the same result and leaves the table as it
    is, whatever the policy files now contain and whatever the parser
    would make of them: nothing is read or parsed again.  A returned
    [Config] is the entry of the table under the path of the policy file
    of the queried directory or of one of its parents. *)
Theorem resolving_twice_returns_the_cached_config
    (json_loads : string -> option JSON) (fs : FileSystem)
    (fuel : nat) (dir root : Path) (lk lk' : gmap string Config) (r : option Config) :
  get_package_config json_loads fuel fs dir root lk = (Ret r, lk') ->
  get_package_config json_loads fuel fs dir root lk' = (Ret r, lk')
  /\ (forall json_loads' fs', same_paths fs fs' ->
        get_package_config json_loads' fuel fs' dir root lk' = (Ret r, lk'))
  /\ (forall c, r = Some c -> exists n, lk' !! policy_file (nth_parent n dir) = Some c).
Proof.
  intros H. split; [|split].
  - by apply (resolve_again json_loads json_loads fs fs fuel dir root lk).
  - intros json_loads' fs' Hsame.
    by apply (resolve_again json_loads json_loads' fs fs' fuel dir root lk).
  - intros c ->. by apply (resolve_result_cached json_loads fs fuel dir root lk).
Qed.

(** ** The two-directional check *)

Section Checks.

Variable json_loads : string -> option JSON.
Variable py_repr : string -> string.
Variable fs : FileSystem.

#[local] Abbreviation check := (check_for_allowed json_loads py_repr).


(** Without a governing policy nothing is reported. *)
Lemma check_no_policy (fuel : nat) (mode : ModuleTreeBuildingMode)
    (file root actual_path : Path) (node : ImportFrom)
    (lk lk' : gmap string Config) :
  actual_path_of mode file root node = Ret actual_path ->
  get_package_config json_loads fuel fs (Pathlib.parent actual_path) root lk
  = (Ret None, lk') ->
  check fuel fs mode file root node lk = (Ret [], lk').
Proof.
  intros Hap H. unfold check_for_allowed, mbind, mlift. by rewrite Hap, H.
Qed.

(** The export-direction check under a resolved [Config]. *)
Lemma check_export_resolved (fuel : nat) (file root : Path) (node : ImportFrom)
    (lk lk' : gmap string Config) (config : Config)
    (export_allow bypass : Trie * bool) (node_module importer : string) :
  get_package_config json_loads fuel fs
    (Pathlib.parent (build_path_from_import (default EmptyString (module node)) root))
    root lk = (Ret (Some config), lk') ->
  allowed config !! EXPORT = Some export_allow ->
  allowed config !! BYPASS = Some bypass ->
  module node = Some node_module ->
  build_module_from_path file root = Ret importer ->
  check fuel fs EXPORT file root node lk
  = (Ret (if is_operation_allowed importer (fst bypass, false) then []
          else if is_operation_allowed node_module export_allow then []
          else violation_lines py_repr EXPORT file node_module config export_allow),
     lk').
Proof.
  intros H Hex Hby Hmod Himp.
  unfold check_for_allowed, mbind, mlift, actual_path_of, allowed_at, mret.
  rewrite H, Hex, Hmod, Himp, Hby. simpl.
  destruct (is_operation_allowed importer (bypass.1, false)); [done|].
  by destruct (is_operation_allowed node_module export_allow).
Qed.

(** The import-direction check under a resolved [Config]. *)
Lemma check_import_resolved (fuel : nat) (file root : Path) (node : ImportFrom)
    (lk lk' : gmap string Config) (config : Config)
    (import_allow : Trie * bool) (node_module : string) :
  get_package_config json_loads fuel fs (Pathlib.parent file) root lk
  = (Ret (Some config), lk') ->
  allowed config !! IMPORT = Some import_allow ->
  module node = Some node_module ->
  check fuel fs IMPORT file root node lk
  = (Ret (if is_operation_allowed node_module import_allow then []
          else violation_lines py_repr IMPORT file node_module config import_allow),
     lk').
Proof.
  intros H Him Hmod.
  unfold check_for_allowed, mbind, mlift, actual_path_of, allowed_at, mret.
  rewrite H, Him, Hmod. simpl.
  by destruct (is_operation_allowed node_module import_allow).
Qed.

End Checks.





(** The lookup table of a run never holds an entry for a policy file
    that cannot be read or parsed. *)
Lemma lookup_from_disk_empty (json_loads : string -> option JSON) (fs : FileSystem) :
  lookup_from_disk json_loads fs ∅.
Proof. intros key c H. by rewrite lookup_empty in H. Qed.

Lemma resolve_keeps_lookup_from_disk (json_loads : string -> option JSON)
    (fs : FileSystem) (fuel : nat) (dir root : Path) (lk : gmap string Config) :
  lookup_from_disk json_loads fs lk ->
  lookup_from_disk json_loads fs (snd (get_package_config json_loads fuel fs dir root lk)).
Proof.
  intros Hinv. revert dir. induction fuel as [|fuel IH]; intros dir; [done|].
  destruct (lk !! policy_file dir) as [c|] eqn:Hlk.
  { by rewrite (resolve_cached _ _ _ _ _ _ _ Hlk). }
  destruct (fs (policy_file dir)) as [node|] eqn:Hfs.
  - rewrite resolve_present by (done || congruence).
    rewrite load_config_cases. unfold Fs.read_text.
    unfold policy_file in Hfs. rewrite Hfs.
    destruct node as [|[text|]]; [done| |done].
    destruct (json_loads text) as [j|] eqn:Hjson; [|done].
    destruct (fill_allowed j mode_keys ∅) as [al| |]; [|done..].
    simpl. intros key c. rewrite lookup_insert.
    case_decide as Hkey; [|by apply Hinv].
    intros _. subst key. by exists text, j.
  - destruct (decide (dir = root)) as [->|Hne].
    + by rewrite resolve_absent_root.
    + rewrite resolve_absent_up by done. apply IH.
Qed.

Lemma unusable_policy_not_cached (json_loads : string -> option JSON)
    (fs : FileSystem) (lk : gmap string Config) (key : string) :
  lookup_from_disk json_loads fs lk ->
  unusable_policy json_loads fs key ->
  lk !! key = None.
Proof.
  intros Hinv Hbad. destruct (lk !! key) as [c|] eqn:Hlk; [|done].
  destruct (Hinv _ _ Hlk) as (text & j & Hfs & Hjson).
  unfold unusable_policy in Hbad. rewrite Hfs in Hbad. congruence.
Qed.


(** ** Building the three entries of a [Config] *)

Lemma has_key_dict_get (items : list (string * JSON)) (name : string) :
  Json.has_key items name = false -> Json.dict_get items name = JNull.
Proof.
  induction items as [|[k v] items IH]; simpl; [done|].
  destruct (String.eqb k name); simpl; [done | apply IH].
Qed.

(** The pair stored for a key of a policy object: flagged exactly when
    [get] gives [None]; the list, dotted, otherwise. *)
Lemma allow_entry_object (items : list (string * JSON)) (name : string) (entry : Trie * bool) :
  allow_entry (JObj items) name = Ret entry ->
  (Json.dict_get items name = JNull /\ entry = (MarisaTrie.Trie_of [], true))
  \/ (Json.dict_get items name <> JNull
      /\ exists modules, Json.dotted_items (Json.dict_get items name) = Ret modules
                         /\ entry = (MarisaTrie.Trie_of modules, false)).
Proof.
  unfold allow_entry; simpl.
  destruct (Json.dict_get items name) as [| | | |l|l] eqn:E; simpl; try done.
  - intros [= <-]. by left.
  - intros [= <-]. right. split; [done|]. by eexists.
  - destruct (omap Json.add_dot l) as [ms| |] eqn:El; simpl; [|done..].
    intros [= <-]. right. split; [done|]. by eexists.
  - intros [= <-]. right. split; [done|]. by eexists.
Qed.

(** The loop over the three keys stores one pair per mode. *)
Lemma fill_allowed_modes (json_config : JSON)
    (allowed : gmap ModuleTreeBuildingMode (Trie * bool)) :
  fill_allowed json_config mode_keys ∅ = Ret allowed ->
  forall mode name, In (mode, name) mode_keys ->
    exists entry, allowed !! mode = Some entry
                  /\ allow_entry json_config name = Ret entry.
Proof.
  unfold mode_keys. rewrite fill_allowed_cons.
  destruct (allow_entry json_config "allowed_import_modules") as [i| |] eqn:Hi; simpl; [|done..].
  rewrite fill_allowed_cons.
  destruct (allow_entry json_config "allowed_export_modules") as [e| |] eqn:He; simpl; [|done..].
  rewrite fill_allowed_cons.
  destruct (allow_entry json_config "bypass_export_check_for_modules") as [b| |] eqn:Hb; simpl; [|done..].
  unfold fill_allowed. intros [= <-] mode name Hin.
  destruct Hin as [[= <- <-]|[[= <- <-]|[[= <- <-]|[]]]].
  - exists i. split; [by simplify_map_eq | done].
  - exists e. split; [by simplify_map_eq | done].
  - exists b. split; [by simplify_map_eq | done].
Qed.

(** A [Config] comes out of [load_config] only for a policy file whose
    text parses to an object. *)
Lemma load_config_returns (json_loads : string -> option JSON) (fs : FileSystem)
    (file : Path) (lk lk' : gmap string Config) (config : Config) :
  load_config json_loads fs file lk = (Ret (Some config), lk') ->
  exists text items,
    Fs.read_text fs file = Ret text
    /\ json_loads text = Some (JObj items)
    /\ fill_allowed (JObj items) mode_keys ∅ = Ret (allowed config)
    /\ path config = Pathlib.str file
    /\ lk' = <[Pathlib.str file := config]> lk.
Proof.
  rewrite load_config_cases.
  destruct (Fs.read_text fs file) as [text| |] eqn:Hread; [|done..].
  destruct (json_loads text) as [j|] eqn:Hjson; [|done].
  destruct (fill_allowed j mode_keys ∅) as [al| |] eqn:Hfill; [|done..].
  intros [= <- <-]. exists text.
  destruct j as [| | | | |items];
    try (unfold mode_keys in Hfill; rewrite fill_allowed_cons in Hfill; done).
  by exists items.
Qed.

(** Loading a readable policy file whose text parses and whose keys
    are well formed. *)
Lemma resolve_loads (json_loads : string -> option JSON) (fs : FileSystem)
    (fuel : nat) (d root : Path) (lk : gmap string Config)
    (text : string) (json_config : JSON)
    (al : gmap ModuleTreeBuildingMode (Trie * bool)) :
  lk !! policy_file d = None ->
  fs (policy_file d) = Some (RegularFile (Some text)) ->
  json_loads text = Some json_config ->
  fill_allowed json_config mode_keys ∅ = Ret al ->
  get_package_config json_loads (S fuel) fs d root lk
  = (Ret (Some (mkConfig al (policy_file d))),
     <[policy_file d := mkConfig al (policy_file d)]> lk).
Proof.
  intros Hlk Hfs Hjson Hfill.
  rewrite resolve_present by (done || congruence).
  rewrite load_config_cases. unfold Fs.read_text.
  unfold policy_file in Hfs. by rewrite Hfs, Hjson, Hfill.
Qed.

(** C4, as the code has it: in a [Config] built from a policy file, the
    entry of a mode is flagged unrestricted if and only if its key is
    missing from the JSON object or is there with the value [null]; a
    flagged entry accepts every candidate, the empty string included; a
    key given with an empty list yields an entry that is not flagged and
    accepts no candidate. *)
Theorem unrestricted_iff_key_absent_or_null
    (json_loads : string -> option JSON) (fs : FileSystem)
    (file : Path) (lk lk' : gmap string Config) (config : Config) :
  load_config json_loads fs file lk = (Ret (Some config), lk') ->
  exists text items,
    Fs.read_text fs file = Ret text
    /\ json_loads text = Some (JObj items)
    /\ forall mode name, In (mode, name) mode_keys ->
         exists entry,
           allowed config !! mode = Some entry
           /\ (snd entry = true
               <-> Json.has_key items name = false \/ Json.dict_get items name = JNull)
           /\ (snd entry = true -> forall c, is_operation_allowed c entry = true)
           /\ (Json.dict_get items name = JArr [] ->
               snd entry = false /\ forall c, is_operation_allowed c entry = false).
Proof.
  intros H. apply load_config_returns in H as (text & items & Hread & Hjson & Hfill & _).
  exists text, items. split; [done|]. split; [done|].
  intros mode name Hin.
  destruct (fill_allowed_modes _ _ Hfill mode name Hin) as (entry & Hentry & Hallow).
  exists entry. split; [done|].
  apply allow_entry_object in Hallow as [[Hnull ->]|(Hsome & modules & Hmods & ->)]; simpl.
  - split; [by split; [right|]|]. split; [done|]. by rewrite Hnull.
  - split; [|split].
    + split; [done|]. intros [Habs|Hnull]; [|done].
      by apply has_key_dict_get in Habs.
    + done.
    + intros Hempty. rewrite Hempty in Hmods. injection Hmods as <-. by split.
Qed.

(** ** The export direction *)

(** The short circuit of the bypass step: in the export direction, when
    the module string computed for the importing file by
    [build_module_from_path] matches the bypass list of the resolved
    [Config], the check reports nothing, whatever [export_allow] says
    about the import. *)
Theorem matching_bypass_reports_nothing
    (json_loads : string -> option JSON) (py_repr : string -> string)
    (fs : FileSystem) (fuel : nat) (file root : Path) (node : ImportFrom)
    (lk lk' : gmap string Config) (config : Config)
    (export_allow bypass : Trie * bool) (importer : string) :
  get_package_config json_loads fuel fs
    (Pathlib.parent (build_path_from_import (default EmptyString (module node)) root))
    root lk = (Ret (Some config), lk') ->
  allowed config !! EXPORT = Some export_allow ->
  allowed config !! BYPASS = Some bypass ->
  build_module_from_path file root = Ret importer ->
  is_operation_allowed importer (fst bypass, false) = true ->
  check_for_allowed json_loads py_repr fuel fs EXPORT file root node lk = (Ret [], lk').
Proof.
  intros H Hex Hby Himp Hmatch.
  destruct (module node) as [node_module|] eqn:Hmod.
  - rewrite (check_export_resolved json_loads py_repr fs fuel file root node lk lk'
               config export_allow bypass node_module importer); try done.
    + by rewrite Hmatch.
    + by rewrite Hmod.
  - unfold check_for_allowed, mbind, mlift, actual_path_of, allowed_at, mret.
    rewrite Hmod. cbv beta iota. rewrite H. cbv beta iota. by rewrite Hex.
Qed.

(** C1, as the code has it: in the export direction, under a resolved
    [Config] whose bypass list does not match the importing file, the
    name tested against [export_allow] is the imported module
    ([node.module]); the violation, when there is one, has as its first
    line the path of the importing file followed by the imported module.
    In scenario B ([pkg/other.py] importing [pkg.db], export list
    [pkg.worker] next to [pkg/db.py]) one violation is reported, naming
    the file [/app/pkg/other.py] and the module [pkg.db]. *)
Theorem export_check_tests_the_imported_module :
  (forall (json_loads : string -> option JSON) (py_repr : string -> string)
          (fs : FileSystem) (fuel : nat) (file root : Path) (node : ImportFrom)
          (lk lk' : gmap string Config) (config : Config)
          (export_allow bypass : Trie * bool) (node_module importer : string),
      get_package_config json_loads fuel fs
        (Pathlib.parent (build_path_from_import (default EmptyString (module node)) root))
        root lk = (Ret (Some config), lk') ->
      allowed config !! EXPORT = Some export_allow ->
      allowed config !! BYPASS = Some bypass ->
      module node = Some node_module ->
      build_module_from_path file root = Ret importer ->
      is_operation_allowed importer (fst bypass, false) = false ->
      check_for_allowed json_loads py_repr fuel fs EXPORT file root node lk
      = (Ret (if is_operation_allowed node_module export_allow then []
              else [ Pathlib.str file +:+ ": " +:+ node_module;
                     "Allowed exports: "
                       +:+ str_of_list py_repr
                             (List.map PyStr.rstrip_dot (MarisaTrie.keys (fst export_allow)));
                     "Config file: " +:+ path config +:+ newline ]),
         lk'))
  /\ (forall (json_loads : string -> option JSON) (py_repr : string -> string) (fuel : nat),
        json_loads Scenario.text_export = Some Scenario.json_export ->
        fst (check_for_allowed json_loads py_repr (S fuel)
               (Scenario.fs_with Scenario.text_export) EXPORT
               Scenario.other_py Scenario.app_root Scenario.from_pkg_db ∅)
        = Ret [ "/app/pkg/other.py: pkg.db";
                "Allowed exports: " +:+ str_of_list py_repr ["pkg.worker"];
                "Config file: /app/pkg/__embargo__.json" +:+ newline ]).
Proof.
  split.
  - intros json_loads py_repr fs fuel file root node lk lk' config export_allow bypass
           node_module importer H Hex Hby Hmod Himp Hmiss.
    rewrite (check_export_resolved json_loads py_repr fs fuel file root node lk lk'
               config export_allow bypass node_module importer); try done.
    by rewrite Hmiss.
  - intros json_loads py_repr fuel Hjson.
    assert (exists al, fill_allowed Scenario.json_export mode_keys ∅ = Ret al
                       /\ al !! EXPORT = Some (MarisaTrie.Trie_of ["pkg.worker."], false)
                       /\ al !! BYPASS = Some (MarisaTrie.Trie_of [], true))
      as (al & Hal & Hex & Hby)
      by (eexists; split; [reflexivity | by vm_compute]).
    pose proof (resolve_loads json_loads (Scenario.fs_with Scenario.text_export) fuel
                  (Pathlib.of_string "/app/pkg") Scenario.app_root ∅
                  Scenario.text_export Scenario.json_export al
                  eq_refl eq_refl Hjson Hal) as Hres.
    rewrite (check_export_resolved json_loads py_repr
               (Scenario.fs_with Scenario.text_export) (S fuel)
               Scenario.other_py Scenario.app_root Scenario.from_pkg_db ∅ _ _ _ _
               "pkg.db" "pkg.other" Hres Hex Hby eq_refl eq_refl).
    by vm_compute.
Qed.

(** C6: in a [Config] built from a policy object without the key
    [bypass_export_check_for_modules], the bypass test of the export
    direction matches no importing module, so the outcome of the export
    check is decided by [export_allow] alone; without the key
    [allowed_export_modules], the export test accepts every module. *)
Theorem absent_bypass_key_exempts_nobody
    (json_loads : string -> option JSON) (fs : FileSystem) (file : Path)
    (lk lk' : gmap string Config) (config : Config)
    (text : string) (items : list (string * JSON)) :
  Fs.read_text fs file = Ret text ->
  json_loads text = Some (JObj items) ->
  load_config json_loads fs file lk = (Ret (Some config), lk') ->
  (Json.has_key items "bypass_export_check_for_modules" = false ->
   exists bypass,
     allowed config !! BYPASS = Some bypass
     /\ (forall importer, is_operation_allowed importer (fst bypass, false) = false)
     /\ (forall py_repr fuel fs' importing root node lk0 lk1 node_module importer,
           get_package_config json_loads fuel fs'
             (Pathlib.parent (build_path_from_import
                                (default EmptyString (module node)) root))
             root lk0 = (Ret (Some config), lk1) ->
           module node = Some node_module ->
           build_module_from_path importing root = Ret importer ->
           exists export_allow,
             allowed config !! EXPORT = Some export_allow
             /\ check_for_allowed json_loads py_repr fuel fs' EXPORT importing root node lk0
                = (Ret (if is_operation_allowed node_module export_allow then []
                        else violation_lines py_repr EXPORT importing node_module
                                             config export_allow),
                   lk1)))
  /\ (Json.has_key items "allowed_export_modules" = false ->
      exists export_allow,
        allowed config !! EXPORT = Some export_allow
        /\ forall candidate, is_operation_allowed candidate export_allow = true).
Proof.
  intros Hread Hjson Hload.
  apply load_config_returns in Hload as (text' & items' & Hread' & Hjson' & Hfill & _).
  rewrite Hread in Hread'. injection Hread' as <-.
  rewrite Hjson in Hjson'. injection Hjson' as <-.
  destruct (fill_allowed_modes _ _ Hfill EXPORT "allowed_export_modules")
    as (ex & Hex & Hex_entry); [unfold mode_keys; simpl; tauto|].
  destruct (fill_allowed_modes _ _ Hfill BYPASS "bypass_export_check_for_modules")
    as (bypass & Hby & Hby_entry); [unfold mode_keys; simpl; tauto|].
  split.
  - intros Habs. apply has_key_dict_get in Habs.
    apply allow_entry_object in Hby_entry as [[_ ->]|[Hsome _]]; [|done].
    exists (MarisaTrie.Trie_of [], true). split; [done|]. split; [done|].
    intros py_repr fuel fs' importing root node lk0 lk1 node_module importer Hres Hmod Himp.
    exists ex. split; [done|].
    by rewrite (check_export_resolved json_loads py_repr fs' fuel importing root node
                  lk0 lk1 config ex (MarisaTrie.Trie_of [], true) node_module importer).
  - intros Habs. apply has_key_dict_get in Habs.
    apply allow_entry_object in Hex_entry as [[_ ->]|[Hsome _]]; [|done].
    by exists (MarisaTrie.Trie_of [], true).
Qed.

(** ** The path-to-module translation *)

(** C2 at [pkg/pyth.py]: [build_module_from_path] removes every
    occurrence of [.py], also the one inside [.pyth], and returns
    [pkgth]; the translation that strips the suffix from the end only
    gives [pkg.pyth]. *)
Theorem build_module_from_path_removes_inner_py :
  build_module_from_path Scenario.pyth_py Scenario.app_root = Ret "pkgth"
  /\ dotted_module_name Scenario.pyth_py Scenario.app_root = Ret "pkg.pyth"
  /\ PyStr.endswith ".py" (Pathlib.str Scenario.pyth_py) = true.
Proof. by vm_compute. Qed.

(** C5 at [pkg/pyth.py]: the policy exempts [pkg.pyth], which is the
    dotted module name of the importing file and matches the bypass
    list; but the bypass step tests the string [pkgth] that
    [build_module_from_path] returns, which does not match, and the
    import of [pkg.db], not on the export list, is reported. *)
Theorem bypass_misses_the_dotted_name_of_pyth :
  dotted_module_name Scenario.pyth_py Scenario.app_root = Ret "pkg.pyth"
  /\ build_module_from_path Scenario.pyth_py Scenario.app_root = Ret "pkgth"
  /\ (exists config lk',
        get_package_config Cases.loads_pyth 1 (Scenario.fs_with Cases.text_bypass_pyth)
          Scenario.pkg_dir Scenario.app_root ∅ = (Ret (Some config), lk')
        /\ allowed config !! BYPASS = Some (MarisaTrie.Trie_of ["pkg.pyth."], false)
        /\ is_operation_allowed "pkg.pyth" (MarisaTrie.Trie_of ["pkg.pyth."], false) = true
        /\ is_operation_allowed "pkgth" (MarisaTrie.Trie_of ["pkg.pyth."], false) = false)
  /\ fst (check_for_allowed Cases.loads_pyth Scenario.repr_plain 1
            (Scenario.fs_with Cases.text_bypass_pyth) EXPORT
            Scenario.pyth_py Scenario.app_root Scenario.from_pkg_db ∅)
     = Ret [ "/app/pkg/pyth.py: pkg.db";
             "Allowed exports: ['pkg.worker']";
             "Config file: /app/pkg/__embargo__.json" +:+ newline ].
Proof.
  split; [by vm_compute|]. split; [by vm_compute|]. split; [|by vm_compute].
  eexists _, _. split; [by vm_compute|]. by vm_compute.
Qed.

(** Where [.py] occurs at the end only, the two translations agree. *)
Example build_module_from_path_other :
  build_module_from_path Scenario.other_py Scenario.app_root = Ret "pkg.other"
  /\ dotted_module_name Scenario.other_py Scenario.app_root = Ret "pkg.other".
Proof. by vm_compute. Qed.

(** ** The scenarios, evaluated *)

(** C1 does not hold as stated: with the export list [pkg.worker] next
    to [pkg/db.py], the importer [pkg/worker.py], whose own module name
    [pkg.worker] the export list accepts, is still reported when it
    imports [pkg.db], because the name that is tested is [pkg.db]; and
    the violation of scenario B names the file [/app/pkg/other.py] and
    the module [pkg.db], not [pkg.other]. *)
Lemma export_check_reports_a_listed_importer :
  build_module_from_path Scenario.worker_py Scenario.app_root = Ret "pkg.worker"
  /\ allowed Scenario.config_export !! EXPORT
     = Some (MarisaTrie.Trie_of ["pkg.worker."], false)
  /\ is_operation_allowed "pkg.worker" (MarisaTrie.Trie_of ["pkg.worker."], false) = true
  /\ check_for_allowed Scenario.loads Scenario.repr_plain 1
       (Scenario.fs_with Scenario.text_export) EXPORT
       Scenario.worker_py Scenario.app_root Scenario.from_pkg_db ∅
     = (Ret [ "/app/pkg/worker.py: pkg.db";
              "Allowed exports: ['pkg.worker']";
              "Config file: /app/pkg/__embargo__.json" +:+ newline ],
        <[Scenario.pkg_policy := Scenario.config_export]> ∅)
  /\ fst (check_for_allowed Scenario.loads Scenario.repr_plain 1
            (Scenario.fs_with Scenario.text_export) EXPORT
            Scenario.other_py Scenario.app_root Scenario.from_pkg_db ∅)
     = Ret [ "/app/pkg/other.py: pkg.db";
             "Allowed exports: ['pkg.worker']";
             "Config file: /app/pkg/__embargo__.json" +:+ newline ].
Proof. repeat split; by vm_compute. Qed.

(** C4 does not hold as stated: a policy whose key
    [allowed_import_modules] is present with the value [null] yields an
    import entry that is flagged unrestricted and accepts everything. *)
Lemma null_valued_key_is_unrestricted :
  Scenario.loads Scenario.text_import_null
  = Some (JObj [("allowed_import_modules", JNull)])
  /\ Json.has_key [("allowed_import_modules", JNull)] "allowed_import_modules" = true
  /\ (exists config lk',
        get_package_config Scenario.loads 1 (Scenario.fs_with Scenario.text_import_null)
          Scenario.pkg_dir Scenario.app_root ∅ = (Ret (Some config), lk')
        /\ allowed config !! IMPORT = Some (MarisaTrie.Trie_of [], true)
        /\ is_operation_allowed "anything" (MarisaTrie.Trie_of [], true) = true
        /\ is_operation_allowed "" (MarisaTrie.Trie_of [], true) = true).
Proof.
  split; [by vm_compute|]. split; [by vm_compute|].
  eexists _, _. split; [by vm_compute|]. by vm_compute.
Qed.

(** ** The theorems at the scenarios *)

(** Scenario B through the general statement of C1's amended form, and
    its second part with the parser of the scenarios. *)
Lemma export_check_tests_the_imported_module_witness :
  check_for_allowed Scenario.loads Scenario.repr_plain 1
    (Scenario.fs_with Scenario.text_export) EXPORT
    Scenario.other_py Scenario.app_root Scenario.from_pkg_db ∅
  = (Ret [ "/app/pkg/other.py: pkg.db";
           "Allowed exports: ['pkg.worker']";
           "Config file: /app/pkg/__embargo__.json" +:+ newline ],
     <[Scenario.pkg_policy := Scenario.config_export]> ∅)
  /\ fst (check_for_allowed Scenario.loads Scenario.repr_plain 1
            (Scenario.fs_with Scenario.text_export) EXPORT
            Scenario.other_py Scenario.app_root Scenario.from_pkg_db ∅)
     = Ret [ "/app/pkg/other.py: pkg.db";
             "Allowed exports: " +:+ str_of_list Scenario.repr_plain ["pkg.worker"];
             "Config file: /app/pkg/__embargo__.json" +:+ newline ].
Proof.
  split.
  - apply (proj1 export_check_tests_the_imported_module
             Scenario.loads Scenario.repr_plain (Scenario.fs_with Scenario.text_export) 1
             Scenario.other_py Scenario.app_root Scenario.from_pkg_db
             ∅ (<[Scenario.pkg_policy := Scenario.config_export]> ∅)
             Scenario.config_export
             (MarisaTrie.Trie_of ["pkg.worker."], false) (MarisaTrie.Trie_of [], true)
             "pkg.db" "pkg.other");
      vm_compute; reflexivity.
  - apply (proj2 export_check_tests_the_imported_module
             Scenario.loads Scenario.repr_plain 0).
    vm_compute; reflexivity.
Defined.

(** An explicit empty import list at [pkg/__embargo__.json]. *)
Lemma unrestricted_iff_key_absent_or_null_witness :
  exists entry,
    allowed Scenario.config_import_empty !! IMPORT = Some entry
    /\ snd entry = false
    /\ forall c, is_operation_allowed c entry = false.
Proof.
  destruct (unrestricted_iff_key_absent_or_null
              Scenario.loads (Scenario.fs_with Scenario.text_import_empty)
              Scenario.pkg_policy_path ∅
              (<[Scenario.pkg_policy := Scenario.config_import_empty]> ∅)
              Scenario.config_import_empty)
    as (text & items & Hread & Hjson & Hmodes).
  - vm_compute; reflexivity.
  - vm_compute in Hread. injection Hread as <-.
    vm_compute in Hjson. injection Hjson as <-.
    destruct (Hmodes IMPORT "allowed_import_modules") as (entry & Hentry & _ & _ & Hempty).
    + left; reflexivity.
    + exists entry. split; [exact Hentry|]. apply Hempty. reflexivity.
Defined.

(** Scenario C: the bypass list names the importer [pkg.other]. *)
Lemma matching_bypass_reports_nothing_witness :
  check_for_allowed Scenario.loads Scenario.repr_plain 1
    (Scenario.fs_with Scenario.text_export_bypass) EXPORT
    Scenario.other_py Scenario.app_root Scenario.from_pkg_db ∅
  = (Ret [], <[Scenario.pkg_policy := Scenario.config_export_bypass]> ∅).
Proof.
  apply (matching_bypass_reports_nothing
           Scenario.loads Scenario.repr_plain (Scenario.fs_with Scenario.text_export_bypass) 1
           Scenario.other_py Scenario.app_root Scenario.from_pkg_db
           ∅ (<[Scenario.pkg_policy := Scenario.config_export_bypass]> ∅)
           Scenario.config_export_bypass
           (MarisaTrie.Trie_of ["pkg.worker."], false)
           (MarisaTrie.Trie_of ["pkg.other."], false)
           "pkg.other");
    vm_compute; reflexivity.
Defined.

(** The policy of scenario B has no bypass key. *)
Lemma absent_bypass_key_exempts_nobody_witness :
  exists bypass,
    allowed Scenario.config_export !! BYPASS = Some bypass
    /\ forall importer, is_operation_allowed importer (fst bypass, false) = false.
Proof.
  assert (Fs.read_text (Scenario.fs_with Scenario.text_export) Scenario.pkg_policy_path
          = Ret Scenario.text_export) as Hread by (vm_compute; reflexivity).
  assert (Scenario.loads Scenario.text_export
          = Some (JObj [("allowed_export_modules", JArr [JStr "pkg.worker"])])) as Hjson
    by (vm_compute; reflexivity).
  assert (load_config Scenario.loads (Scenario.fs_with Scenario.text_export)
            Scenario.pkg_policy_path ∅
          = (Ret (Some Scenario.config_export),
             <[Scenario.pkg_policy := Scenario.config_export]> ∅)) as Hload
    by (vm_compute; reflexivity).
  destruct (proj1 (absent_bypass_key_exempts_nobody _ _ _ _ _ _ _ _ Hread Hjson Hload))
    as (bypass & Hby & Hnone & _).
  - vm_compute; reflexivity.
  - exists bypass. split; [exact Hby | exact Hnone].
Defined.

(** [pkg] below [/app] on a tree without policy files. *)
Lemma no_policy_up_to_root_resolves_to_None_witness :
  get_package_config Scenario.loads 2 Scenario.fs_bare
    Scenario.pkg_dir Scenario.app_root ∅ = (Ret None, ∅).
Proof.
  apply (no_policy_up_to_root_resolves_to_None
           Scenario.loads Scenario.fs_bare Scenario.pkg_dir Scenario.app_root
           (mkPath Relative ["pkg"]) ∅ 2).
  - vm_compute; reflexivity.
  - intros k Hk. simpl in Hk.
    destruct k as [|[|k]]; [split; vm_compute; reflexivity .. | lia].
  - simpl; lia.
Defined.

(** Resolving [pkg] twice in scenario B. *)
Lemma resolving_twice_returns_the_cached_config_witness :
  get_package_config Scenario.loads 1 (Scenario.fs_with Scenario.text_export)
    Scenario.pkg_dir Scenario.app_root (<[Scenario.pkg_policy := Scenario.config_export]> ∅)
  = (Ret (Some Scenario.config_export), <[Scenario.pkg_policy := Scenario.config_export]> ∅).
Proof.
  assert (get_package_config Scenario.loads 1 (Scenario.fs_with Scenario.text_export)
            Scenario.pkg_dir Scenario.app_root ∅
          = (Ret (Some Scenario.config_export),
             <[Scenario.pkg_policy := Scenario.config_export]> ∅)) as Hfirst
    by (vm_compute; reflexivity).
  exact (proj1 (resolving_twice_returns_the_cached_config _ _ _ _ _ _ _ _ Hfirst)).
Defined.


(** [pkg] below [/app], and [/srv/lib] outside it on an empty disk. *)
Lemma resolution_returns_exactly_below_root_witness :
  fst (get_package_config Scenario.loads 2 Scenario.fs_bare
         Scenario.pkg_dir Scenario.app_root ∅) <> OutOfFuel
  /\ get_package_config Scenario.loads 9 Scenario.fs_empty
       Scenario.elsewhere Scenario.app_root ∅ = (OutOfFuel, ∅).
Proof.
  split.
  - apply (proj1 (resolution_returns_exactly_below_root
                    Scenario.loads Scenario.fs_bare Scenario.pkg_dir Scenario.app_root ∅)
                 (mkPath Relative ["pkg"])).
    + vm_compute; reflexivity.
    + simpl; lia.
  - apply (proj2 (resolution_returns_exactly_below_root
                    Scenario.loads Scenario.fs_empty Scenario.elsewhere Scenario.app_root ∅)).
    + vm_compute; reflexivity.
    + intros n. split; [reflexivity | apply lookup_empty].
Defined.

(* ------------------------------------------------------------------ *)
(** * Further properties of core.py *)

(** ** The prefix-matching engine *)

Lemma str_app_cons (x : ascii) (a b : string) :
  String x a +:+ b = String x (a +:+ b).
Proof. reflexivity. Qed.

Lemma str_app_assoc (a b c : string) : (a +:+ b) +:+ c = a +:+ (b +:+ c).
Proof. induction a as [|x a IH]; [done|]. by rewrite !str_app_cons, IH. Qed.

Lemma startswith_app_r (p s r : string) :
  PyStr.startswith p s = true -> PyStr.startswith p (s +:+ r) = true.
Proof.
  intros H. apply startswith_inv in H as [t ->].
  rewrite str_app_assoc. apply startswith_app.
Qed.

Lemma dedup_In (l : list string) (x : string) : In x (MarisaTrie.dedup l) <-> In x l.
Proof.
  induction l as [|y l IH]; simpl; [done|].
  rewrite filter_In, IH. split.
  - intros [->|[H _]]; [by left | by right].
  - intros [->|H]; [by left|].
    destruct (String.eqb_spec y x) as [->|Hne]; [by left|].
    right. split; [done|]. simpl.
    by destruct (String.eqb_spec y x).
Qed.

(** A restricted entry accepts a candidate when one of its keys is a
    prefix of the dotted candidate. *)
Lemma is_operation_allowed_restricted (c : string) (t : Trie) :
  is_operation_allowed c (t, false) = true
  <-> exists k, In k (trie_keys t) /\ PyStr.startswith k (c +:+ ".") = true.
Proof.
  unfold is_operation_allowed, MarisaTrie.prefixes; simpl.
  rewrite Nat.ltb_lt. split.
  - intros H.
    destruct (List.filter (fun k => PyStr.startswith k (c +:+ ".")) (trie_keys t))
      as [|k ks] eqn:E; [simpl in H; lia|].
    assert (In k (k :: ks)) as Hin by by left.
    rewrite <- E in Hin. apply filter_In in Hin. by exists k.
  - intros (k & Hin & Hk).
    assert (In k (List.filter (fun k => PyStr.startswith k (c +:+ ".")) (trie_keys t)))
      as Hf by by apply filter_In.
    destruct (List.filter _ _); [done | simpl; lia].
Qed.

Lemma omap_add_dot_strings (l : list string) :
  omap Json.add_dot (List.map JStr l) = Ret (List.map (fun p => p +:+ ".") l).
Proof. induction l as [|p l IH]; simpl; [done|]. by rewrite IH. Qed.

(** The entry built for a key that holds a list of strings. *)
Lemma allow_entry_strings (items : list (string * JSON)) (name : string) (l : list string) :
  Json.dict_get items name = JArr (List.map JStr l) ->
  allow_entry (JObj items) name
  = Ret (MarisaTrie.Trie_of (List.map (fun p => p +:+ ".") l), false).
Proof.
  intros H. unfold allow_entry; simpl. rewrite H; simpl.
  by rewrite omap_add_dot_strings.
Qed.

(** A restricted entry made of dotted prefixes accepts the candidates
    at or under one of the prefixes. *)
Lemma is_operation_allowed_listed (l : list string) (c : string) :
  is_operation_allowed c (MarisaTrie.Trie_of (List.map (fun p => p +:+ ".") l), false) = true
  <-> exists p, In p l /\ (c = p \/ PyStr.startswith (p +:+ ".") c = true).
Proof.
  rewrite is_operation_allowed_restricted. unfold MarisaTrie.Trie_of; simpl. split.
  - intros (k & Hin & Hk). apply dedup_In, in_map_iff in Hin as (p & <- & Hp).
    exists p. split; [done|]. by apply startswith_dotted.
  - intros (p & Hp & Hc). exists (p +:+ "."). split.
    + apply dedup_In, in_map_iff. by exists p.
    + by apply startswith_dotted.
Qed.

(** X1: the entry built from a list of prefixes accepts a candidate if
    and only if the candidate is one of the prefixes or starts with one
    of them followed by a dot; duplicates in the list change nothing. *)
Theorem allowed_iff_under_some_prefix
    (items : list (string * JSON)) (name : string) (l : list string) (c : string) :
  Json.dict_get items name = JArr (List.map JStr l) ->
  exists allow,
    allow_entry (JObj items) name = Ret allow
    /\ (is_operation_allowed c allow = true
        <-> exists p, In p l /\ (c = p \/ PyStr.startswith (p +:+ ".") c = true)).
Proof.
  intros H. eexists. split; [by apply allow_entry_strings|].
  apply is_operation_allowed_listed.
Qed.

(** X2: whatever the entry, a module that is accepted brings all its
    submodules with it. *)
Theorem allowed_module_allows_submodules
    (m sub : string) (allow : Trie * bool) :
  is_operation_allowed m allow = true ->
  is_operation_allowed (m +:+ "." +:+ sub) allow = true.
Proof.
  destruct allow as [t [|]]; [done|].
  rewrite !is_operation_allowed_restricted.
  intros (k & Hin & Hk). exists k. split; [done|].
  replace ((m +:+ "." +:+ sub) +:+ ".") with ((m +:+ ".") +:+ (sub +:+ "."))
    by by rewrite !str_app_assoc.
  by apply startswith_app_r.
Qed.

(** ** The list shown in a violation *)

Lemma rstrip_dot_snoc_dot (p : string) :
  PyStr.rstrip_dot (p +:+ ".") = PyStr.rstrip_dot p.
Proof.
  induction p as [|c p IH]; [done|].
  rewrite str_app_cons. simpl. by rewrite IH.
Qed.

(** X9: the allowed list of a violation, for an entry built from a list
    of prefixes, shows exactly the configured prefixes with their
    trailing dots removed. *)
Theorem violation_shows_the_configured_prefixes
    (py_repr : string -> string) (mode : ModuleTreeBuildingMode) (file : Path)
    (node_module : string) (config : Config)
    (items : list (string * JSON)) (name : string) (l : list string) :
  Json.dict_get items name = JArr (List.map JStr l) ->
  exists entry shown,
    allow_entry (JObj items) name = Ret entry
    /\ violation_lines py_repr mode file node_module config entry
       = [ Pathlib.str file +:+ ": " +:+ node_module;
           (if decide (mode = EXPORT) then "Allowed exports: " else "Allowed imports: ")
             +:+ str_of_list py_repr shown;
           "Config file: " +:+ path config +:+ newline ]
    /\ (forall x, In x shown <-> exists p, In p l /\ x = PyStr.rstrip_dot p).
Proof.
  intros H. eexists. eexists. split; [by apply allow_entry_strings|]. split.
  - unfold violation_lines. by destruct (decide (mode = EXPORT)).
  - intros x. simpl. unfold MarisaTrie.keys; simpl. rewrite in_map_iff. split.
    + intros (k & <- & Hin). apply dedup_In, in_map_iff in Hin as (p & <- & Hp).
      exists p. by rewrite rstrip_dot_snoc_dot.
    + intros (p & Hp & ->). exists (p +:+ "."). split; [apply rstrip_dot_snoc_dot|].
      apply dedup_In, in_map_iff. by exists p.
Qed.

(** ** Modules and paths *)

Lemma replace_nil (old new : string) : PyStr.replace old new EmptyString = EmptyString.
Proof. reflexivity. Qed.

(** Replacing one character by another goes character by character. *)
Lemma replace_char_cons (a b c : ascii) (s : string) :
  PyStr.replace (String a EmptyString) (String b EmptyString) (String c s)
  = String (if Ascii.eqb a c then b else c)
           (PyStr.replace (String a EmptyString) (String b EmptyString) s).
Proof.
  unfold PyStr.replace. cbn [PyStr.replace_from PyStr.startswith String.length Nat.sub].
  by destruct (Ascii.eqb a c).
Qed.

(** Where [old] does not occur, [replace] changes nothing. *)
Lemma replace_absent (old new s : string) :
  str_contains old s = false -> PyStr.replace old new s = s.
Proof.
  unfold PyStr.replace. induction s as [|c s IH]; [done|].
  cbn [str_contains]. intros H. apply orb_false_iff in H as [Hhere Hlater].
  cbn [PyStr.replace_from]. rewrite Hhere. by rewrite IH.
Qed.

Lemma contains_char_cons (a c : ascii) (s : string) :
  str_contains (String a EmptyString) (String c s) = false ->
  a <> c /\ str_contains (String a EmptyString) s = false.
Proof.
  cbn [str_contains PyStr.startswith]. intros H.
  apply orb_false_iff in H as [Hhere Hlater].
  split; [|done]. intros ->. by rewrite Ascii.eqb_refl in Hhere.
Qed.

(** Dots to slashes and back. *)
Lemma replace_dots_back (m : string) :
  str_contains "/" m = false ->
  PyStr.replace "/" "." (PyStr.replace "." "/" m) = m.
Proof.
  induction m as [|c m IH]; [done|]. intros H.
  apply contains_char_cons in H as [Hne Hrest].
  rewrite replace_char_cons.
  destruct (Ascii.eqb_spec "." c) as [<-|Hdot]; rewrite replace_char_cons.
  - rewrite Ascii.eqb_refl. by rewrite IH.
  - destruct (Ascii.eqb_spec "/" c) as [|_]; [done|]. by rewrite IH.
Qed.

Lemma split_nonempty (sep : ascii) (s : string) : PyStr.split sep s <> [].
Proof.
  destruct s as [|c s]; simpl; [done|].
  destruct (Ascii.eqb c sep); [done|]. by destruct (PyStr.split sep s).
Qed.

Lemma join_cons_cons (sep x y : string) (l : list string) :
  PyStr.join sep (x :: y :: l) = x +:+ sep +:+ PyStr.join sep (y :: l).
Proof. reflexivity. Qed.

(** [sep.join(s.split(sep))] is [s]. *)
Lemma join_split (sep : ascii) (s : string) :
  PyStr.join (String sep EmptyString) (PyStr.split sep s) = s.
Proof.
  induction s as [|c s IH]; [done|]. simpl.
  pose proof (split_nonempty sep s) as Hne.
  destruct (Ascii.eqb_spec c sep) as [->|Hc].
  - destruct (PyStr.split sep s) as [|w ws]; [done|].
    by rewrite join_cons_cons, IH.
  - destruct (PyStr.split sep s) as [|w ws]; [done|].
    destruct ws as [|w' ws].
    + cbv [PyStr.join String.concat] in *. by rewrite IH.
    + rewrite join_cons_cons, str_app_cons. rewrite join_cons_cons in IH. by rewrite IH.
Qed.

(** No piece of a split is the separator itself. *)
Lemma split_piece_not_sep (sep : ascii) (s w : string) :
  In w (PyStr.split sep s) -> w <> String sep EmptyString.
Proof.
  revert w. induction s as [|c s IH]; intros w; simpl.
  - by intros [<-|[]].
  - destruct (Ascii.eqb_spec c sep) as [->|Hc].
    + intros [<-|H]; [done | by apply IH].
    + pose proof (split_nonempty sep s) as Hne.
      destruct (PyStr.split sep s) as [|w0 ws]; [done|].
      intros [<-|H]; [congruence|]. apply IH. by right.
Qed.

(** Splitting the slashed form on slashes is splitting the module on
    dots. *)
Lemma split_slashed (m : string) :
  str_contains "/" m = false ->
  PyStr.split "/" (PyStr.replace "." "/" m) = PyStr.split "." m.
Proof.
  induction m as [|c m IH]; [done|]. intros H.
  apply contains_char_cons in H as [Hne Hrest].
  rewrite replace_char_cons.
  destruct (Ascii.eqb_spec "." c) as [<-|Hdot]; simpl.
  - by rewrite IH.
  - destruct (Ascii.eqb_spec c "/") as [->|_]; [done|].
    destruct (Ascii.eqb_spec c ".") as [->|_]; [done|].
    by rewrite IH.
Qed.

Lemma filter_keep_all (l : list string) :
  Forall (fun w => w <> EmptyString) l ->
  (forall w, In w l -> w <> ".") ->
  List.filter Pathlib.keep_component l = l.
Proof.
  induction l as [|w l IH]; [done|]. intros Hne Hdot.
  apply Forall_cons in Hne as [Hw Hl]. simpl.
  unfold Pathlib.keep_component at 1.
  destruct (String.eqb_spec w "") as [|_]; [done|].
  destruct (String.eqb_spec w ".") as [Heq|_].
  - exfalso. apply (Hdot w); [by left | done].
  - simpl. rewrite IH; [done | done |]. intros w' Hw'. apply Hdot. by right.
Qed.

Lemma first_piece_plain (m : string) :
  Forall (fun w => w <> EmptyString) (PyStr.split "." m) ->
  str_contains "/" m = false ->
  PyStr.count_leading "/" (PyStr.replace "." "/" m) = 0.
Proof.
  destruct m as [|c m]; [done|]. intros Hpieces Hslash.
  apply contains_char_cons in Hslash as [Hne _].
  rewrite replace_char_cons.
  destruct (Ascii.eqb_spec "." c) as [<-|Hdot].
  - simpl in Hpieces. apply Forall_cons in Hpieces as [Hw _]. done.
  - simpl. by destruct (Ascii.eqb_spec c "/") as [->|_].
Qed.

(** The path of a module whose pieces are not empty lies below the
    root, one component per piece. *)
Lemma build_path_from_import_descend (m : string) (root : Path) :
  str_contains "/" m = false ->
  Forall (fun w => w <> EmptyString) (PyStr.split "." m) ->
  build_path_from_import m root = descend root (PyStr.split "." m).
Proof.
  intros Hslash Hpieces.
  unfold build_path_from_import, Pathlib.truediv, Pathlib.of_string, Pathlib.anchor_of.
  rewrite first_piece_plain by done. simpl.
  rewrite split_slashed by done.
  rewrite filter_keep_all; [done | done |].
  intros w Hw. by apply (split_piece_not_sep "." m).
Qed.

Lemma str_relative (cs : list string) :
  cs <> [] -> Pathlib.str (mkPath Relative cs) = PyStr.join "/" cs.
Proof. by destruct cs. Qed.

(** X8: a module name without slashes, without empty pieces between its
    dots and without [.py] inside it comes back from its path. *)
Theorem module_survives_the_path_translation (m : string) (root : Path) :
  str_contains "/" m = false ->
  str_contains ".py" m = false ->
  Forall (fun w => w <> EmptyString) (PyStr.split "." m) ->
  build_module_from_path (build_path_from_import m root) root = Ret m.
Proof.
  intros Hslash Hpy Hpieces.
  rewrite build_path_from_import_descend by done.
  unfold build_module_from_path. rewrite relative_to_descend. simpl.
  f_equal. rewrite str_relative by apply split_nonempty.
  rewrite <- split_slashed by done.
  rewrite (join_split "/").
  rewrite replace_dots_back by done. by apply replace_absent.
Qed.

Lemma startswith_py_snoc (c : ascii) (t : string) :
  PyStr.startswith ".py" (String c (t +:+ ".py")) = PyStr.startswith ".py" (String c t).
Proof.
  cbn [PyStr.startswith]. destruct (Ascii.eqb "." c); [|done].
  destruct t as [|a t]; [done|]. rewrite str_app_cons. cbn [PyStr.startswith].
  destruct (Ascii.eqb "p" a); [|done].
  destruct t as [|b t]; [done|]. rewrite str_app_cons. cbn [PyStr.startswith].
  by destruct (Ascii.eqb "y" b).
Qed.

Lemma replace_final_py (t : string) :
  str_contains ".py" t = false -> PyStr.replace ".py" "" (t +:+ ".py") = t.
Proof.
  unfold PyStr.replace. induction t as [|c t IH]; [done|].
  cbn [str_contains]. intros H. apply orb_false_iff in H as [Hhere Hlater].
  rewrite str_app_cons. cbn [PyStr.replace_from].
  rewrite startswith_py_snoc, Hhere. by rewrite IH.
Qed.

(** X14: for a file whose dotted relative path is [t.py] with no [.py]
    inside [t], [build_module_from_path] returns [t]. *)
Theorem build_module_from_path_strips_a_final_py
    (path root rel : Path) (t : string) :
  Pathlib.relative_to path root = Ret rel ->
  PyStr.replace "/" "." (Pathlib.str rel) = t +:+ ".py" ->
  str_contains ".py" t = false ->
  build_module_from_path path root = Ret t.
Proof.
  intros Hrel Hdotted Hpy. unfold build_module_from_path.
  rewrite Hrel; simpl. rewrite Hdotted. by rewrite replace_final_py.
Qed.

(** ** Loading a policy file *)

Lemma omap_add_dot_shape (items : list JSON) :
  omap Json.add_dot items
  = if forallb is_JStr items
    then omap Json.add_dot items
    else Raise TypeError.
Proof.
  induction items as [|x items IH]; [done|].
  destruct x; try done. cbn [forallb is_JStr andb omap Json.add_dot obind].
  destruct (forallb is_JStr items); [done|]. by rewrite IH.
Qed.

Lemma omap_add_dot_ok (items : list JSON) :
  forallb is_JStr items = true -> exists l, omap Json.add_dot items = Ret l.
Proof.
  induction items as [|x items IH]; [by exists []|].
  destruct x; try done. cbn [forallb is_JStr andb]. intros H.
  destruct (IH H) as [l Hl]. eexists. cbn [omap Json.add_dot obind]. by rewrite Hl.
Qed.

(** The pair built for one key: there is one exactly for a well-shaped
    value, and [TypeError] otherwise. *)
Lemma allow_entry_shape (items : list (string * JSON)) (name : string) :
  if well_shaped (Json.dict_get items name)
  then exists entry, allow_entry (JObj items) name = Ret entry
  else allow_entry (JObj items) name = Raise TypeError.
Proof.
  unfold allow_entry; simpl.
  destruct (Json.dict_get items name) as [| | | |l|l]; simpl; try by eexists.
  rewrite omap_add_dot_shape.
  destruct (forallb is_JStr l) eqn:E; [|done].
  destruct (omap_add_dot_ok l E) as [ms ->]. by eexists.
Qed.

Lemma fill_allowed_shape (items : list (string * JSON)) :
  if forallb (fun kn => well_shaped (Json.dict_get items (snd kn))) mode_keys
  then exists al, fill_allowed (JObj items) mode_keys ∅ = Ret al
  else fill_allowed (JObj items) mode_keys ∅ = Raise TypeError.
Proof.
  unfold mode_keys. cbn [forallb snd].
  pose proof (allow_entry_shape items "allowed_import_modules") as Hi.
  pose proof (allow_entry_shape items "allowed_export_modules") as He.
  pose proof (allow_entry_shape items "bypass_export_check_for_modules") as Hb.
  rewrite fill_allowed_cons.
  destruct (well_shaped (Json.dict_get items "allowed_import_modules"));
    [destruct Hi as [i ->] | by rewrite Hi].
  cbn [obind andb]. rewrite fill_allowed_cons.
  destruct (well_shaped (Json.dict_get items "allowed_export_modules"));
    [destruct He as [e ->] | by rewrite He].
  cbn [obind andb]. rewrite fill_allowed_cons.
  destruct (well_shaped (Json.dict_get items "bypass_export_check_for_modules"));
    [destruct Hb as [b ->] | by rewrite Hb].
  by eexists.
Qed.

(** X3: what a readable policy file that is JSON, and is not in the
    lookup table, leads to: [AttributeError] when the text is not an
    object; [TypeError] when one of the three keys holds a number, a
    boolean or a list with an item that is not a string; otherwise a
    [Config], stored under the path of the policy file.  An error leaves
    the lookup table as it was. *)
Theorem shape_of_the_policy_decides_loading
    (json_loads : string -> option JSON) (fs : FileSystem) (fuel : nat)
    (d root : Path) (lk : gmap string Config) (text : string) (json_config : JSON) :
  lk !! policy_file d = None ->
  fs (policy_file d) = Some (RegularFile (Some text)) ->
  json_loads text = Some json_config ->
  match json_config with
  | JObj items =>
      if forallb (fun kn => well_shaped (Json.dict_get items (snd kn))) mode_keys
      then exists c, get_package_config json_loads (S fuel) fs d root lk
                     = (Ret (Some c), <[policy_file d := c]> lk)
                     /\ path c = policy_file d
      else get_package_config json_loads (S fuel) fs d root lk = (Raise TypeError, lk)
  | _ => get_package_config json_loads (S fuel) fs d root lk = (Raise AttributeError, lk)
  end.
Proof.
  intros Hlk Hfs Hjson.
  rewrite resolve_present by (done || congruence).
  rewrite load_config_cases. unfold Fs.read_text.
  unfold policy_file in Hfs. rewrite Hfs, Hjson.
  destruct json_config as [| | | | |items];
    try (unfold mode_keys; by rewrite fill_allowed_cons).
  pose proof (fill_allowed_shape items) as Hshape.
  destruct (forallb _ mode_keys).
  - destruct Hshape as [al ->]. by eexists.
  - by rewrite Hshape.
Qed.

(** ** Nearest policy and the lookup table *)

Lemma descend_ne_root (root : Path) (t : list string) :
  t <> [] -> descend root t <> root.
Proof.
  intros Ht Heq. rewrite <- (descend_nil root) in Heq at 2.
  by apply descend_inj in Heq.
Qed.

Lemma take_app_ne (s1 suffix : list string) (k : nat) :
  0 < k <= length suffix -> s1 ++ take k suffix <> [].
Proof.
  intros Hk H. apply app_eq_nil in H as [_ H].
  apply (f_equal length) in H. rewrite length_take in H. simpl in H. lia.
Qed.

(** X4: the nearest policy file decides.  From a directory below [d],
    itself at or below the root, with no policy file and no lookup entry
    strictly between, the policy file of [d] is loaded and its [Config]
    is returned and stored under that file's path, whatever policy files
    exist further up. *)
Theorem nearest_policy_file_is_loaded
    (json_loads : string -> option JSON) (fs : FileSystem) (fuel : nat)
    (root : Path) (above suffix : list string) (lk : gmap string Config)
    (text : string) (json_config : JSON)
    (al : gmap ModuleTreeBuildingMode (Trie * bool)) :
  let d := descend root above in
  (forall k, 0 < k <= length suffix ->
     fs (policy_file (descend d (take k suffix))) = None
     /\ lk !! policy_file (descend d (take k suffix)) = None) ->
  lk !! policy_file d = None ->
  fs (policy_file d) = Some (RegularFile (Some text)) ->
  json_loads text = Some json_config ->
  fill_allowed json_config mode_keys ∅ = Ret al ->
  length suffix < fuel ->
  get_package_config json_loads fuel fs (descend d suffix) root lk
  = (Ret (Some (mkConfig al (policy_file d))),
     <[policy_file d := mkConfig al (policy_file d)]> lk).
Proof.
  intros d Hwalk Hlk Hfs Hjson Hfill Hfuel.
  replace fuel with (length suffix + S (fuel - length suffix - 1)) by lia.
  rewrite resolve_walk_up.
  - by apply (resolve_loads json_loads fs _ d root lk text json_config al).
  - intros k Hk. destruct (Hwalk k Hk) as [H1 H2]. repeat split; try done.
    unfold d. rewrite descend_app. apply descend_ne_root. by apply take_app_ne.
Qed.

(** X5: a directory whose nearest policy file is in the lookup table
    gets the stored [Config]: nothing is read or parsed (any parser, any
    content of the file, even none), and the table stays as it is.  So
    all directories below one policy file share one [Config]. *)
Theorem cached_policy_serves_every_directory_below
    (json_loads : string -> option JSON) (fs : FileSystem) (fuel : nat)
    (root : Path) (above suffix : list string) (lk : gmap string Config) (c : Config) :
  let d := descend root above in
  (forall k, 0 < k <= length suffix ->
     fs (policy_file (descend d (take k suffix))) = None
     /\ lk !! policy_file (descend d (take k suffix)) = None) ->
  lk !! policy_file d = Some c ->
  length suffix < fuel ->
  get_package_config json_loads fuel fs (descend d suffix) root lk = (Ret (Some c), lk).
Proof.
  intros d Hwalk Hlk Hfuel.
  replace fuel with (length suffix + S (fuel - length suffix - 1)) by lia.
  rewrite resolve_walk_up.
  - by apply resolve_cached.
  - intros k Hk. destruct (Hwalk k Hk) as [H1 H2]. repeat split; try done.
    unfold d. rewrite descend_app. apply descend_ne_root. by apply take_app_ne.
Qed.

(** *** What every call keeps *)

Section Steps.

(** A relation between the lookup table before and after a call that
    holds of a call doing nothing and of two calls in a row. *)
Context (P : gmap string Config -> gmap string Config -> Prop).
Hypothesis P_refl : forall lk, P lk lk.
Hypothesis P_trans : forall lk1 lk2 lk3, P lk1 lk2 -> P lk2 lk3 -> P lk1 lk3.

Lemma mbind_steps {A B : Type} (c : M A) (k : A -> M B) :
  (forall lk, P lk (snd (c lk))) ->
  (forall a lk, P lk (snd (k a lk))) ->
  forall lk, P lk (snd (mbind c k lk)).
Proof.
  intros Hc Hk lk. unfold mbind. specialize (Hc lk).
  destruct (c lk) as [[a| |] lk']; simpl in *; [|done..].
  by apply (P_trans _ lk').
Qed.

Lemma mfold_steps {A S : Type} (body : S -> A -> M S) (l : list A) :
  (forall acc x lk, P lk (snd (body acc x lk))) ->
  forall acc lk, P lk (snd (mfold body l acc lk)).
Proof.
  intros Hbody. induction l as [|x l IH]; intros acc lk; simpl; [done|].
  apply mbind_steps; [apply Hbody | intros; apply IH].
Qed.

Variable json_loads : string -> option JSON.
Variable py_repr : string -> string.
Variable get_import_nodes : string -> outcome (list ImportFrom).
Variable fs : FileSystem.

Hypothesis resolve_step : forall fuel dir root lk,
  P lk (snd (get_package_config json_loads fuel fs dir root lk)).

Lemma check_for_allowed_steps (fuel : nat) (mode : ModuleTreeBuildingMode)
    (file root : Path) (node : ImportFrom) (lk : gmap string Config) :
  P lk (snd (check_for_allowed json_loads py_repr fuel fs mode file root node lk)).
Proof.
  revert lk. unfold check_for_allowed.
  apply mbind_steps; [done|]. intros actual_path.
  apply mbind_steps; [apply resolve_step|]. intros [config|]; [|done].
  apply mbind_steps; [done|]. intros entry.
  destruct (module node) as [node_module|]; [|done].
  apply mbind_steps; [done|]. intros [|]; [done|].
  apply mbind_steps; [done|]. intros entry'.
  by destruct (is_operation_allowed node_module entry').
Qed.

Lemma check_for_violations_steps (fuel : nat) (filename root : Path)
    (lk : gmap string Config) :
  P lk (snd (check_for_violations json_loads py_repr get_import_nodes fuel fs
               filename root lk)).
Proof.
  revert lk. unfold check_for_violations.
  destruct (negb (PyStr.endswith ".py" (Pathlib.str filename))); [done|].
  apply mbind_steps; [done|]. intros nodes.
  apply mfold_steps. intros acc node. unfold check_node.
  apply mbind_steps; [apply check_for_allowed_steps|]. intros imp.
  apply mbind_steps; [apply check_for_allowed_steps|]. done.
Qed.

Lemma scan_files_steps (fuel : nat) (root : Path) (files : list Path)
    (acc : list string * list string) (lk : gmap string Config) :
  P lk (snd (scan_files json_loads py_repr get_import_nodes fuel fs root files acc lk)).
Proof.
  revert acc lk. unfold scan_files. apply mfold_steps. intros acc file.
  apply mbind_steps; [apply check_for_violations_steps | done].
Qed.

End Steps.

Lemma resolve_lookup_grows (json_loads : string -> option JSON) (fs : FileSystem)
    (fuel : nat) (dir root : Path) (lk : gmap string Config) :
  lk ⊆ snd (get_package_config json_loads fuel fs dir root lk).
Proof.
  destruct (resolve_lookup_after json_loads fs fuel dir root lk)
    as [->|(key & c & _ & Hnone & _ & ->)]; [done|].
  by apply insert_subseteq.
Qed.

(** X6: the lookup table only grows.  Whatever a check, the checks of a
    file or the whole loop over the files do, and however they end, every
    entry that was in the table is still there, unchanged. *)
Theorem lookup_table_only_grows
    (json_loads : string -> option JSON) (py_repr : string -> string)
    (get_import_nodes : string -> outcome (list ImportFrom))
    (fs : FileSystem) (fuel : nat) (root : Path) (lk : gmap string Config) :
  (forall dir, lk ⊆ snd (get_package_config json_loads fuel fs dir root lk))
  /\ (forall mode file node,
        lk ⊆ snd (check_for_allowed json_loads py_repr fuel fs mode file root node lk))
  /\ (forall filename,
        lk ⊆ snd (check_for_violations json_loads py_repr get_import_nodes fuel fs
                    filename root lk))
  /\ (forall files acc,
        lk ⊆ snd (scan_files json_loads py_repr get_import_nodes fuel fs root files acc lk)).
Proof.
  assert (forall lk1 lk2 lk3 : gmap string Config, lk1 ⊆ lk2 -> lk2 ⊆ lk3 -> lk1 ⊆ lk3)
    as Htrans by (intros ??? H1 H2; by transitivity lk2).
  repeat split; intros.
  - apply resolve_lookup_grows.
  - apply (check_for_allowed_steps (⊆)); try done.
    intros. apply resolve_lookup_grows.
  - apply (check_for_violations_steps (⊆)); try done.
    intros. apply resolve_lookup_grows.
  - apply (scan_files_steps (⊆)); try done.
    intros. apply resolve_lookup_grows.
Qed.

(** *** Complete entries, and the errors that can come out *)

Lemma fill_allowed_complete (json_config : JSON)
    (al : gmap ModuleTreeBuildingMode (Trie * bool)) :
  fill_allowed json_config mode_keys ∅ = Ret al ->
  forall mode, is_Some (al !! mode).
Proof.
  intros Hfill mode.
  assert (exists name, In (mode, name) mode_keys) as [name Hin].
  { unfold mode_keys. destruct mode; eexists; simpl; eauto. }
  destruct (fill_allowed_modes _ _ Hfill mode name Hin) as (entry & -> & _). by eexists.
Qed.

Lemma resolve_keeps_lookup_wf (json_loads : string -> option JSON) (fs : FileSystem)
    (fuel : nat) (dir root : Path) (lk : gmap string Config) :
  lookup_wf lk ->
  lookup_wf (snd (get_package_config json_loads fuel fs dir root lk)).
Proof.
  intros Hinv. revert dir. induction fuel as [|fuel IH]; intros dir; [done|].
  destruct (lk !! policy_file dir) as [c|] eqn:Hlk.
  { by rewrite (resolve_cached _ _ _ _ _ _ _ Hlk). }
  destruct (fs (policy_file dir)) as [node|] eqn:Hfs.
  - rewrite resolve_present by (done || congruence).
    rewrite load_config_cases.
    destruct (Fs.read_text fs _) as [text| |]; [|done..].
    destruct (json_loads text) as [j|]; [|done].
    destruct (fill_allowed j mode_keys ∅) as [al| |] eqn:Hfill; [|done..].
    simpl. intros key c. rewrite lookup_insert.
    case_decide as Hkey; [|by apply Hinv].
    intros [= <-]. split; [done|]. intros mode. simpl.
    by apply (fill_allowed_complete j).
  - destruct (decide (dir = root)) as [->|Hne].
    + by rewrite resolve_absent_root.
    + rewrite resolve_absent_up by done. apply IH.
Qed.






Lemma build_module_from_path_outcome (file root : Path) :
  (exists importer, build_module_from_path file root = Ret importer
                    /\ at_or_below file root = true)
  \/ (build_module_from_path file root = Raise ValueError
      /\ at_or_below file root = false).
Proof.
  unfold build_module_from_path, at_or_below, Pathlib.relative_to.
  case_decide; [|by right].
  destruct (Pathlib.strip_prefix _ _); [left; by eexists | by right].
Qed.



(** The loop over the files keeps the entries of the lookup table
    complete. *)
Lemma scan_keeps_lookup_wf (json_loads : string -> option JSON)
    (py_repr : string -> string) (get_import_nodes : string -> outcome (list ImportFrom))
    (fs : FileSystem) (fuel : nat) (root : Path) (files : list Path)
    (acc : list string * list string) (lk : gmap string Config) :
  lookup_wf lk ->
  lookup_wf (snd (scan_files json_loads py_repr get_import_nodes fuel fs root files acc lk)).
Proof.
  refine (scan_files_steps (fun lk lk' => lookup_wf lk -> lookup_wf lk')
            _ _ json_loads py_repr get_import_nodes fs _ fuel root files acc lk).
  - by intros.
  - intros lk1 lk2 lk3 H12 H23 H1. by apply H23, H12.
  - intros. by apply resolve_keeps_lookup_wf.
Qed.

(** ** The two directions, end to end *)

(** X19: under a resolved [Config] whose import list is [l], the
    import-direction check of [from m import ...] passes if and only if
    [m] is one of the listed prefixes or lies under one of them. *)
Theorem import_check_passes_iff_listed
    (json_loads : string -> option JSON) (py_repr : string -> string)
    (fs : FileSystem) (fuel : nat) (file root : Path) (node : ImportFrom)
    (lk lk' : gmap string Config) (config : Config) (l : list string) (m : string) :
  get_package_config json_loads fuel fs (Pathlib.parent file) root lk
  = (Ret (Some config), lk') ->
  allowed config !! IMPORT
  = Some (MarisaTrie.Trie_of (List.map (fun p => p +:+ ".") l), false) ->
  module node = Some m ->
  (check_for_allowed json_loads py_repr fuel fs IMPORT file root node lk = (Ret [], lk')
   <-> exists p, In p l /\ (m = p \/ PyStr.startswith (p +:+ ".") m = true)).
Proof.
  intros Hres Himp Hmod.
  rewrite (check_import_resolved json_loads py_repr fs fuel file root node lk lk'
             config _ m Hres Himp Hmod).
  rewrite <- is_operation_allowed_listed.
  destruct (is_operation_allowed m _); [done|]. split; [|done].
  unfold violation_lines. by intros [= H].
Qed.

(** X20: under a resolved [Config] whose export list is [exported] and
    whose bypass list is [exempt], the export-direction check passes if
    and only if the importing file's module string lies at or under an
    exempt prefix, or the imported module lies at or under an exported
    prefix; the flag stored with the bypass list plays no part. *)
Theorem export_check_passes_iff_exempt_or_exported
    (json_loads : string -> option JSON) (py_repr : string -> string)
    (fs : FileSystem) (fuel : nat) (file root : Path) (node : ImportFrom)
    (lk lk' : gmap string Config) (config : Config)
    (exported exempt : list string) (flag : bool) (m importer : string) :
  get_package_config json_loads fuel fs
    (Pathlib.parent (build_path_from_import (default EmptyString (module node)) root))
    root lk = (Ret (Some config), lk') ->
  allowed config !! EXPORT
  = Some (MarisaTrie.Trie_of (List.map (fun p => p +:+ ".") exported), false) ->
  allowed config !! BYPASS
  = Some (MarisaTrie.Trie_of (List.map (fun p => p +:+ ".") exempt), flag) ->
  module node = Some m ->
  build_module_from_path file root = Ret importer ->
  (check_for_allowed json_loads py_repr fuel fs EXPORT file root node lk = (Ret [], lk')
   <-> (exists p, In p exempt
                  /\ (importer = p \/ PyStr.startswith (p +:+ ".") importer = true))
       \/ (exists p, In p exported /\ (m = p \/ PyStr.startswith (p +:+ ".") m = true))).
Proof.
  intros Hres Hex Hby Hmod Himp.
  rewrite (check_export_resolved json_loads py_repr fs fuel file root node lk lk'
             config _ _ m importer Hres Hex Hby Hmod Himp).
  rewrite <- !is_operation_allowed_listed. simpl.
  destruct (is_operation_allowed importer _); [by split; [left|]|].
  destruct (is_operation_allowed m _); [by split; [right|]|].
  split; [|by intros [|]]. unfold violation_lines. by intros [= H].
Qed.

(** ** Where the resolution starts *)

Lemma parent_descend (root : Path) (t : list string) :
  t <> [] -> Pathlib.parent (descend root t) = descend root (removelast t).
Proof.
  intros Ht. unfold Pathlib.parent, descend; simpl. by rewrite removelast_app.
Qed.

Lemma length_removelast_lt (t : list string) :
  t <> [] -> length (removelast t) < length t.
Proof.
  destruct t as [|x t] using rev_ind; [done|]. intros _.
  rewrite removelast_last, length_app. simpl. lia.
Qed.

(** The directory of a file strictly below the root is at or below the
    root. *)
Lemma import_directory_below (file root rel : Path) :
  Pathlib.relative_to file root = Ret rel -> components rel <> [] ->
  Pathlib.parent file = descend root (removelast (components rel)).
Proof.
  intros Hrel Hne. apply relative_to_inv in Hrel as [-> _]. by apply parent_descend.
Qed.

(** So is the directory in which the export direction looks. *)
Lemma export_directory_below (m : string) (root : Path) :
  str_contains "/" m = false ->
  Forall (fun w => w <> EmptyString) (PyStr.split "." m) ->
  Pathlib.parent (build_path_from_import m root)
  = descend root (removelast (PyStr.split "." m)).
Proof.
  intros Hslash Hpieces. rewrite build_path_from_import_descend by done.
  apply parent_descend, split_nonempty.
Qed.

(** Steps other than the resolution need no fuel. *)
Lemma check_fuel (json_loads : string -> option JSON) (py_repr : string -> string)
    (fs : FileSystem) (fuel : nat) (mode : ModuleTreeBuildingMode)
    (file root actual_path : Path) (node : ImportFrom) (lk : gmap string Config) :
  actual_path_of mode file root node = Ret actual_path ->
  fst (get_package_config json_loads fuel fs (Pathlib.parent actual_path) root lk)
  <> OutOfFuel ->
  fst (check_for_allowed json_loads py_repr fuel fs mode file root node lk) <> OutOfFuel.
Proof.
  intros Hap. unfold check_for_allowed, mbind, mlift, mret. rewrite Hap.
  destruct (get_package_config _ _ _ _ _ _) as [[[config|]|e|] lk']; simpl; try done.
  intros _. unfold allowed_at.
  destruct (allowed config !! mode) as [entry|]; [|done]. simpl.
  destruct (module node) as [node_module|]; [|done].
  destruct mode; simpl.
  - by destruct (is_operation_allowed node_module entry).
  - destruct (build_module_from_path_outcome file root)
      as [(importer & -> & _)|[-> _]]; simpl; [|done].
    destruct (allowed config !! BYPASS) as [bypass|]; simpl; [|done].
    destruct (is_operation_allowed importer (bypass.1, false)); [done|].
    by destruct (is_operation_allowed node_module entry).
  - done.
Qed.

(** X11: a check needs no more nested calls than the depth at which it
    starts.  In the import direction, for a file strictly below the root,
    as many as the file has components below the root are enough; in the
    export direction, for a module without slashes or empty pieces, as
    many as it has pieces. *)
Theorem check_returns_within_the_depth
    (json_loads : string -> option JSON) (py_repr : string -> string)
    (fs : FileSystem) (fuel : nat) (file root : Path) (node : ImportFrom)
    (lk : gmap string Config) :
  (forall rel,
      Pathlib.relative_to file root = Ret rel ->
      components rel <> [] ->
      length (components rel) <= fuel ->
      fst (check_for_allowed json_loads py_repr fuel fs IMPORT file root node lk)
      <> OutOfFuel)
  /\ (forall m,
        module node = Some m ->
        str_contains "/" m = false ->
        Forall (fun w => w <> EmptyString) (PyStr.split "." m) ->
        length (PyStr.split "." m) <= fuel ->
        fst (check_for_allowed json_loads py_repr fuel fs EXPORT file root node lk)
        <> OutOfFuel).
Proof.
  split.
  - intros rel Hrel Hne Hfuel.
    apply (check_fuel _ _ _ _ _ _ _ file); [done|].
    rewrite (import_directory_below file root rel) by done.
    apply resolve_below_root_returns.
    pose proof (length_removelast_lt _ Hne). lia.
  - intros m Hmod Hslash Hpieces Hfuel.
    apply (check_fuel _ _ _ _ _ _ _ (build_path_from_import m root)).
    + unfold actual_path_of. by rewrite Hmod.
    + rewrite export_directory_below by done.
      apply resolve_below_root_returns.
      pose proof (length_removelast_lt _ (split_nonempty "." m)). lia.
Qed.

(** Outside the root, with nothing on the way up, the resolution never
    ends. *)
Lemma resolve_outside_root (json_loads : string -> option JSON) (fs : FileSystem)
    (root : Path) (lk : gmap string Config) (fuel : nat) (dir : Path) :
  at_or_below dir root = false ->
  (forall n, fs (policy_file (nth_parent n dir)) = None
             /\ lk !! policy_file (nth_parent n dir) = None) ->
  get_package_config json_loads fuel fs dir root lk = (OutOfFuel, lk).
Proof.
  revert dir. induction fuel as [|fuel IH]; intros dir Hout Hnone; [done|].
  destruct (Hnone 0) as [Hfs Hlk]; simpl in Hfs, Hlk.
  rewrite resolve_absent_up by (done || by apply not_below_ne_root).
  apply IH; [by apply parent_not_below|].
  intros n. apply (Hnone (S n)).
Qed.

Lemma parent_of_root_outside (root : Path) :
  components root <> [] -> at_or_below (Pathlib.parent root) root = false.
Proof.
  intros Hne. apply not_true_is_false. intros H.
  apply at_or_below_descend in H as [suffix H].
  unfold Pathlib.parent, descend in H. injection H as H.
  apply (f_equal length) in H. rewrite length_app in H.
  pose proof (length_removelast_lt _ Hne). lia.
Qed.

(** X12: in the export direction a statement without a module
    ([from . import x]) makes the resolution start at the parent of the
    root, before [node.module] is tested: when the root is not the
    anchor and no policy file or lookup entry lies above it, no number
    of nested calls is enough, whereas the import direction resolves
    from the directory of the file as usual. *)
Theorem export_check_without_module_starts_above_the_root
    (json_loads : string -> option JSON) (py_repr : string -> string)
    (fs : FileSystem) (file root : Path) (node : ImportFrom)
    (lk : gmap string Config) (fuel : nat) :
  module node = None ->
  components root <> [] ->
  (forall n, fs (policy_file (nth_parent (S n) root)) = None
             /\ lk !! policy_file (nth_parent (S n) root) = None) ->
  check_for_allowed json_loads py_repr fuel fs EXPORT file root node lk = (OutOfFuel, lk)
  /\ (forall r lk',
        get_package_config json_loads fuel fs (Pathlib.parent file) root lk = (Ret r, lk') ->
        (forall c, r = Some c -> is_Some (allowed c !! IMPORT)) ->
        check_for_allowed json_loads py_repr fuel fs IMPORT file root node lk
        = (Ret [], lk')).
Proof.
  intros Hmod Hroot Hnone. split.
  - unfold check_for_allowed, mbind, mlift, actual_path_of. rewrite Hmod. simpl.
    assert (build_path_from_import "" root = root) as ->.
    { unfold build_path_from_import, Pathlib.truediv. simpl.
      destruct root as [a cs]. simpl. by rewrite app_nil_r. }
    rewrite resolve_outside_root; [done | by apply parent_of_root_outside | done].
  - intros r lk' Hres Hcomplete.
    unfold check_for_allowed, mbind, mlift, mret, actual_path_of, allowed_at.
    rewrite Hres. destruct r as [c|]; [|done].
    destruct (Hcomplete c eq_refl) as [entry ->]. by rewrite Hmod.
Qed.

(** ** A tree without policy files *)

Lemma resolve_none_below (json_loads : string -> option JSON) (fs : FileSystem)
    (root : Path) (lk : gmap string Config) (t : list string) (fuel : nat) :
  (forall dir, fs (policy_file dir) = None) ->
  (forall dir, lk !! policy_file dir = None) ->
  length t < fuel ->
  get_package_config json_loads fuel fs (descend root t) root lk = (Ret None, lk).
Proof.
  intros Hfs Hlk Hfuel.
  replace fuel with (length t + S (fuel - length t - 1)) by lia.
  rewrite resolve_walk_up.
  - by apply resolve_absent_root.
  - intros k Hk. repeat split; try done.
    apply descend_ne_root. intros H. apply (f_equal length) in H.
    rewrite length_take in H. simpl in H. lia.
Qed.

Lemma check_node_no_policy (json_loads : string -> option JSON)
    (py_repr : string -> string) (fs : FileSystem) (fuel : nat)
    (file root rel : Path) (node : ImportFrom) (m : string)
    (acc : list string * list string) (lk : gmap string Config) :
  (forall dir, fs (policy_file dir) = None) ->
  (forall dir, lk !! policy_file dir = None) ->
  Pathlib.relative_to file root = Ret rel -> components rel <> [] ->
  length (components rel) <= fuel ->
  module node = Some m ->
  str_contains "/" m = false ->
  Forall (fun w => w <> EmptyString) (PyStr.split "." m) ->
  length (PyStr.split "." m) <= fuel ->
  check_node json_loads py_repr fuel fs file root acc node lk = (Ret acc, lk).
Proof.
  intros Hfs Hlk Hrel Hne Hdepth Hmod Hslash Hpieces Hlen.
  unfold check_node, mbind.
  rewrite (check_no_policy json_loads py_repr fs fuel IMPORT file root file node lk lk);
    [|done|].
  2:{ rewrite (import_directory_below file root rel) by done.
      apply resolve_none_below; try done.
      pose proof (length_removelast_lt _ Hne). lia. }
  rewrite (check_no_policy json_loads py_repr fs fuel EXPORT file root
             (build_path_from_import m root) node lk lk).
  - unfold mret. destruct acc as [a b]. simpl. by rewrite !app_nil_r.
  - unfold actual_path_of. by rewrite Hmod.
  - rewrite export_directory_below by done.
    apply resolve_none_below; try done.
    pose proof (length_removelast_lt _ (split_nonempty "." m)). lia.
Qed.

Lemma is_local_import_module (fs : FileSystem) (node : ImportFrom) :
  is_local_import fs node = true -> exists m, module node = Some m.
Proof. unfold is_local_import. destruct (module node); [by eexists | done]. Qed.

(** X10: a tree without policy files passes.  When no directory holds
    a policy file, the checks of every file strictly below the root,
    whose local imports name modules without slashes or empty pieces,
    find nothing in either direction, the lookup table stays empty, and
    the exit status is 0. *)
Theorem tree_without_policy_files_passes
    (json_loads : string -> option JSON) (py_repr : string -> string)
    (get_import_nodes : string -> outcome (list ImportFrom))
    (fs : FileSystem) (fuel : nat) (root : Path) (files : list Path) :
  (forall dir, fs (policy_file dir) = None) ->
  (forall file, In file files ->
     PyStr.endswith ".py" (Pathlib.str file) = true ->
     exists rel nodes,
       Pathlib.relative_to file root = Ret rel
       /\ components rel <> []
       /\ length (components rel) <= fuel
       /\ get_import_nodes (Pathlib.str file) = Ret nodes
       /\ forall node m,
            In node nodes -> is_local_import fs node = true -> module node = Some m ->
            str_contains "/" m = false
            /\ Forall (fun w => w <> EmptyString) (PyStr.split "." m)
            /\ length (PyStr.split "." m) <= fuel) ->
  scan_files json_loads py_repr get_import_nodes fuel fs root files ([], []) ∅
  = (Ret ([], []), ∅)
  /\ main_loop json_loads py_repr get_import_nodes fuel fs root files = Ret ([], [])
  /\ exit_status ([], []) = 0.
Proof.
  intros Hfs Hfiles.
  assert (scan_files json_loads py_repr get_import_nodes fuel fs root files ([], []) ∅
          = (Ret ([], []), ∅)) as Hscan.
  { unfold scan_files. induction files as [|file files IH]; [done|].
    cbn [mfold]. unfold mbind at 1.
    assert (check_for_violations json_loads py_repr get_import_nodes fuel fs file root ∅
            = (Ret ([], []), ∅)) as Hfile.
    { unfold check_for_violations.
      destruct (PyStr.endswith ".py" (Pathlib.str file)) eqn:Hpy; [|done]. simpl.
      destruct (Hfiles file (or_introl eq_refl) Hpy)
        as (rel & nodes & Hrel & Hne & Hdepth & Hnodes & Hmods).
      unfold mbind at 1, mlift. rewrite Hnodes.
      assert (forall l, (forall node, In node l ->
                           In node nodes /\ is_local_import fs node = true) ->
                mfold (check_node json_loads py_repr fuel fs file root) l ([], []) ∅
                = (Ret ([], []), ∅)) as Hloop.
      { induction l as [|node l IHl]; intros Hl; [done|].
        cbn [mfold]. unfold mbind at 1.
        destruct (Hl node (or_introl eq_refl)) as [Hin Hlocal].
        destruct (is_local_import_module fs node Hlocal) as [m Hmod].
        destruct (Hmods node m Hin Hlocal Hmod) as (Hslash & Hpieces & Hlen).
        rewrite (check_node_no_policy json_loads py_repr fs fuel file root rel node m);
          try done.
        apply IHl. intros node' Hin'. apply Hl. by right. }
      apply Hloop. intros node Hin. by apply filter_In in Hin. }
    unfold mbind at 1. rewrite Hfile. unfold mret. simpl.
    apply IH. intros file' Hin'. apply Hfiles. by right. }
  split; [done|]. split; [|done].
  unfold main_loop. by rewrite Hscan.
Qed.

(** ** Local imports *)

Lemma hd_split_cons (c : ascii) (s : string) :
  c <> "."%char ->
  hd EmptyString (PyStr.split "." (String c s))
  = String c (hd EmptyString (PyStr.split "." s)).
Proof.
  intros Hc. simpl. destruct (Ascii.eqb_spec c ".") as [|_]; [done|].
  pose proof (split_nonempty "." s). by destruct (PyStr.split "." s).
Qed.

Lemma first_package_alone (p : string) :
  str_contains "." p = false -> hd EmptyString (PyStr.split "." p) = p.
Proof.
  induction p as [|c p IH]; [done|]. intros H.
  apply contains_char_cons in H as [Hne Hrest].
  rewrite hd_split_cons by congruence. by rewrite IH.
Qed.

Lemma first_package_of_dotted (p rest : string) :
  str_contains "." p = false ->
  hd EmptyString (PyStr.split "." (p +:+ "." +:+ rest)) = p.
Proof.
  induction p as [|c p IH]; [done|]. intros H.
  apply contains_char_cons in H as [Hne Hrest].
  rewrite str_app_cons, hd_split_cons by congruence. by rewrite IH.
Qed.

(** X13: whether an import is local is decided by its first package
    alone: [from p.rest import ...] is local exactly when
    [from p import ...] is. *)
Theorem locality_depends_on_the_first_package
    (fs : FileSystem) (p rest : string) :
  str_contains "." p = false ->
  is_local_import fs (mkImportFrom (Some (p +:+ "." +:+ rest)))
  = is_local_import fs (mkImportFrom (Some p))
  /\ is_local_import fs (mkImportFrom (Some p))
     = (Fs.is_dir fs (Pathlib.of_string p)
        || Fs.exists_ fs (Pathlib.of_string (p +:+ ".py"))).
Proof.
  intros Hp. unfold is_local_import; simpl.
  by rewrite first_package_of_dotted, first_package_alone.
Qed.

(** ** The loop over the files *)

Lemma mfold_app {A S : Type} (body : S -> A -> M S) (l1 l2 : list A) (acc : S)
    (lk : gmap string Config) :
  mfold body (l1 ++ l2) acc lk
  = mbind (mfold body l1 acc) (fun acc' => mfold body l2 acc') lk.
Proof.
  revert acc lk. induction l1 as [|x l1 IH]; intros acc lk; [done|].
  cbn [mfold app]. unfold mbind.
  destruct (body acc x lk) as [[acc1| |] lk1]; [|done..].
  by rewrite IH.
Qed.

(** X15: the loop over the files can be cut anywhere: checking
    [files1 ++ files2] is checking [files1] and then, with the violations
    and the lookup table it leaves, [files2].  Violations found earlier
    stay in front, in order: starting from [acc] gives [acc] followed by
    what starting from nothing gives. *)
Theorem scanning_in_parts
    (json_loads : string -> option JSON) (py_repr : string -> string)
    (get_import_nodes : string -> outcome (list ImportFrom))
    (fs : FileSystem) (fuel : nat) (root : Path) :
  (forall files1 files2 acc lk,
      scan_files json_loads py_repr get_import_nodes fuel fs root (files1 ++ files2) acc lk
      = mbind (scan_files json_loads py_repr get_import_nodes fuel fs root files1 acc)
              (fun acc' =>
                 scan_files json_loads py_repr get_import_nodes fuel fs root files2 acc')
              lk)
  /\ (forall files acc lk,
        scan_files json_loads py_repr get_import_nodes fuel fs root files acc lk
        = mbind (scan_files json_loads py_repr get_import_nodes fuel fs root files ([], []))
                (fun found => mret (fst acc ++ fst found, snd acc ++ snd found))
                lk).
Proof.
  split.
  - intros. unfold scan_files. apply mfold_app.
  - unfold scan_files. induction files as [|file files IH]; intros acc lk.
    + destruct acc as [a b]. cbn [mfold]. unfold mbind, mret. simpl.
      by rewrite !app_nil_r.
    + cbn [mfold]. unfold mbind.
      destruct (check_for_violations _ _ _ _ _ _ _ _) as [[found| |] lk1];
        unfold mret; cbv beta iota; [|done..].
      pose proof (IH (acc.1 ++ found.1, acc.2 ++ found.2) lk1) as H1.
      pose proof (IH ((([], []) : list string * list string).1 ++ found.1,
                      (([], []) : list string * list string).2 ++ found.2) lk1) as H2.
      unfold mbind, mret in H1, H2. rewrite H1, H2.
      destruct (mfold _ files ([], []) lk1) as [[rest| |] lk2]; [|done..].
      simpl. by rewrite !app_assoc.
Qed.

(** ** The files to check *)

Section DiscoveryProperties.

Variable rglob : Path -> string -> list Path.
Variable fs : FileSystem.
Variable root : Path.

Lemma collect_filename_acc (all_files : list Path) (filename : string) :
  collect_filename rglob fs root all_files filename
  = all_files ++ collect_filename rglob fs root [] filename.
Proof. unfold collect_filename. by destruct (is_file fs _). Qed.

Lemma fold_collect (filenames : list string) (all_files : list Path) :
  fold_left (collect_filename rglob fs root) filenames all_files
  = all_files ++ flat_map (collect_filename rglob fs root []) filenames.
Proof.
  revert all_files. induction filenames as [|f filenames IH]; intros all_files; simpl.
  - by rewrite app_nil_r.
  - rewrite IH, (collect_filename_acc all_files f). by rewrite <- app_assoc.
Qed.

Lemma get_filenames_flat (filenames : list string) :
  get_filenames_to_check rglob fs filenames root
  = flat_map (collect_filename rglob fs root []) filenames.
Proof. unfold get_filenames_to_check. by rewrite fold_collect. Qed.

(** What one argument contributes. *)
Lemma collect_filename_In (filename : string) (p : Path) :
  In p (collect_filename rglob fs root [] filename)
  <-> (is_file fs (root // Pathlib.of_string filename) = true
       /\ p = root // Pathlib.of_string filename)
      \/ (is_file fs (root // Pathlib.of_string filename) = false
          /\ In p (rglob (root // Pathlib.of_string filename) "*.py")
          /\ existsb in_ignore_list (path_parts p) = false).
Proof.
  unfold collect_filename.
  destruct (is_file fs (root // Pathlib.of_string filename)); simpl.
  - split; [intros [<-|[]]; by left | intros [[_ ->]|[? _]]; [by left | done]].
  - rewrite filter_In, negb_true_iff. split; [by right | by intros [[? _]|[_ ?]]].
Qed.

(** X16: [get_filenames_to_check] takes the arguments one by one and in
    order (the result for two lists in a row is the two results in a
    row, nothing is merged or dropped as a duplicate).  A path is
    returned exactly when an argument names it as an existing file, or
    when the walk below an argument that is not a file yields it and
    none of its parts is in [IGNORE_LIST]: a file named explicitly is
    kept even inside an ignored directory. *)
Theorem files_to_check_are_named_or_walked :
  (forall filenames1 filenames2,
      get_filenames_to_check rglob fs (filenames1 ++ filenames2) root
      = get_filenames_to_check rglob fs filenames1 root
        ++ get_filenames_to_check rglob fs filenames2 root)
  /\ (forall filenames p,
        In p (get_filenames_to_check rglob fs filenames root)
        <-> exists filename,
              In filename filenames
              /\ ((is_file fs (root // Pathlib.of_string filename) = true
                   /\ p = root // Pathlib.of_string filename)
                  \/ (is_file fs (root // Pathlib.of_string filename) = false
                      /\ In p (rglob (root // Pathlib.of_string filename) "*.py")
                      /\ existsb in_ignore_list (path_parts p) = false))).
Proof.
  split.
  - intros. rewrite !get_filenames_flat. apply flat_map_app.
  - intros filenames p. rewrite get_filenames_flat, in_flat_map.
    split; intros (filename & Hin & H); exists filename; (split; [done|]);
      by apply collect_filename_In.
Qed.

Lemma path_parts_components (p : Path) (x : string) :
  In x (components p) -> In x (path_parts p).
Proof. unfold path_parts. destruct (anchor p); simpl; auto. Qed.

(** X17: the parts of a walked path include those of the root.  So
    when the root itself lies in a directory named in [IGNORE_LIST] (and
    the walk yields paths below where it starts), relative arguments
    that are directories contribute nothing: only files named explicitly
    are returned. *)
Theorem ignored_root_drops_every_walked_file (filenames : list string) (p : Path) :
  (forall path found, In found (rglob path "*.py") ->
                      exists suffix, found = descend path suffix) ->
  existsb in_ignore_list (components root) = true ->
  (forall filename, In filename filenames ->
                    anchor (Pathlib.of_string filename) = Relative) ->
  In p (get_filenames_to_check rglob fs filenames root) ->
  is_file fs p = true
  /\ exists filename, In filename filenames /\ p = root // Pathlib.of_string filename.
Proof.
  intros Hwalk Hroot Hrel Hin.
  rewrite get_filenames_flat, in_flat_map in Hin.
  destruct Hin as (filename & Hfilename & Hp).
  apply collect_filename_In in Hp as [[Hfile ->]|(_ & Hfound & Hparts)].
  - split; [done|]. by exists filename.
  - exfalso. destruct (Hwalk _ _ Hfound) as [suffix ->].
    apply existsb_exists in Hroot as (x & Hx & Hignored).
    assert (existsb in_ignore_list
              (path_parts (descend (root // Pathlib.of_string filename) suffix)) = true)
      as Htrue; [|congruence].
    apply existsb_exists. exists x. split; [|done].
    apply path_parts_components. unfold descend, Pathlib.truediv.
    rewrite (Hrel filename Hfilename). simpl.
    apply in_or_app. left. apply in_or_app. by left.
Qed.

End DiscoveryProperties.

(* ------------------------------------------------------------------ *)
(** ** The further theorems at concrete inputs *)

Lemma str_length_app (a b : string) :
  String.length (a +:+ b) = String.length a + String.length b.
Proof. induction a as [|x a IH]; [done|]. rewrite str_app_cons. simpl. by rewrite IH. Qed.

(** The path of a policy file is longer than any path of the bare tree. *)
Lemma join_snoc_length (cs : list string) (last : string) :
  String.length last <= String.length (PyStr.join "/" (cs ++ [last])).
Proof.
  induction cs as [|c cs IH]; [simpl; lia|].
  destruct cs as [|c' cs].
  - simpl. rewrite !str_length_app. lia.
  - change ((c :: c' :: cs) ++ [last]) with (c :: c' :: (cs ++ [last])).
    rewrite join_cons_cons, !str_length_app.
    change (c' :: cs ++ [last]) with ((c' :: cs) ++ [last]). lia.
Qed.

Lemma policy_file_long (dir : Path) : 16 <= String.length (policy_file dir).
Proof.
  unfold policy_file, Pathlib.truediv. simpl. unfold Pathlib.str. simpl.
  pose proof (join_snoc_length (components dir) "__embargo__.json") as H.
  simpl in H.
  destruct (anchor dir); destruct (components dir ++ ["__embargo__.json"]) eqn:E;
    try (by destruct (components dir));
    rewrite ?str_length_app; simpl in *; lia.
Qed.

Lemma fs_bare_no_policy (dir : Path) : Scenario.fs_bare (policy_file dir) = None.
Proof.
  pose proof (policy_file_long dir) as Hlen. unfold Scenario.fs_bare.
  destruct (String.eqb_spec (policy_file dir) "/app") as [Heq|_];
    [rewrite Heq in Hlen; simpl in Hlen; lia|].
  destruct (String.eqb_spec (policy_file dir) "/app/pkg") as [Heq|_];
    [rewrite Heq in Hlen; simpl in Hlen; lia|].
  destruct (String.eqb_spec (policy_file dir) "pkg") as [Heq|_];
    [rewrite Heq in Hlen; simpl in Hlen; lia|].
  done.
Qed.

Lemma allowed_iff_under_some_prefix_witness :
  exists allow,
    allow_entry (JObj Cases.api_items) "allowed_import_modules" = Ret allow
    /\ (is_operation_allowed "pkg.api.v1" allow = true
        <-> exists p, In p ["pkg.api"]
                      /\ ("pkg.api.v1" = p \/ PyStr.startswith (p +:+ ".") "pkg.api.v1" = true)).
Proof.
  apply (allowed_iff_under_some_prefix Cases.api_items "allowed_import_modules"
           ["pkg.api"] "pkg.api.v1").
  reflexivity.
Defined.

Lemma allowed_module_allows_submodules_witness :
  is_operation_allowed ("pkg.api" +:+ "." +:+ "v1") (MarisaTrie.Trie_of ["pkg.api."], false)
  = true.
Proof.
  apply (allowed_module_allows_submodules "pkg.api" "v1"
           (MarisaTrie.Trie_of ["pkg.api."], false)).
  vm_compute; reflexivity.
Defined.

Lemma shape_of_the_policy_decides_loading_witness :
  exists c,
    get_package_config Scenario.loads 1 (Scenario.fs_with Scenario.text_export)
      Scenario.pkg_dir Scenario.app_root ∅
    = (Ret (Some c), <[policy_file Scenario.pkg_dir := c]> ∅)
    /\ path c = policy_file Scenario.pkg_dir.
Proof.
  assert ((∅ : gmap string Config) !! policy_file Scenario.pkg_dir = None) as Hlk
    by (vm_compute; reflexivity).
  assert (Scenario.fs_with Scenario.text_export (policy_file Scenario.pkg_dir)
          = Some (RegularFile (Some Scenario.text_export))) as Hfs
    by (vm_compute; reflexivity).
  assert (Scenario.loads Scenario.text_export = Some Scenario.json_export) as Hjson
    by (vm_compute; reflexivity).
  exact (shape_of_the_policy_decides_loading Scenario.loads _ 0 Scenario.pkg_dir
           Scenario.app_root ∅ Scenario.text_export Scenario.json_export Hlk Hfs Hjson).
Defined.

Lemma nearest_policy_file_is_loaded_witness :
  get_package_config Scenario.loads 2 (Scenario.fs_with Scenario.text_export)
    Cases.sub_dir Scenario.app_root ∅
  = (Ret (Some Scenario.config_export),
     <[Scenario.pkg_policy := Scenario.config_export]> ∅).
Proof.
  apply (nearest_policy_file_is_loaded Scenario.loads
           (Scenario.fs_with Scenario.text_export) 2 Scenario.app_root ["pkg"] ["sub"] ∅
           Scenario.text_export Scenario.json_export (allowed Scenario.config_export)).
  - intros k Hk. simpl in Hk. assert (k = 1) as -> by lia.
    split; vm_compute; reflexivity.
  - vm_compute; reflexivity.
  - vm_compute; reflexivity.
  - vm_compute; reflexivity.
  - vm_compute; reflexivity.
  - simpl; lia.
Defined.

(** The policy file is gone from the disk; its [Config] is still served. *)
Lemma cached_policy_serves_every_directory_below_witness :
  get_package_config Scenario.loads 2 Scenario.fs_empty Cases.sub_dir Scenario.app_root
    (<[Scenario.pkg_policy := Scenario.config_export]> ∅)
  = (Ret (Some Scenario.config_export),
     <[Scenario.pkg_policy := Scenario.config_export]> ∅).
Proof.
  apply (cached_policy_serves_every_directory_below Scenario.loads Scenario.fs_empty 2
           Scenario.app_root ["pkg"] ["sub"]
           (<[Scenario.pkg_policy := Scenario.config_export]> ∅) Scenario.config_export).
  - intros k Hk. simpl in Hk. assert (k = 1) as -> by lia.
    split; vm_compute; reflexivity.
  - vm_compute; reflexivity.
  - simpl; lia.
Defined.


Lemma module_survives_the_path_translation_witness :
  build_module_from_path (build_path_from_import "pkg.db" Scenario.app_root)
    Scenario.app_root = Ret "pkg.db".
Proof.
  apply (module_survives_the_path_translation "pkg.db" Scenario.app_root).
  - vm_compute; reflexivity.
  - vm_compute; reflexivity.
  - simpl. repeat constructor; discriminate.
Defined.

Lemma violation_shows_the_configured_prefixes_witness :
  exists shown,
    forall x, In x shown <-> exists p, In p ["pkg.api"] /\ x = PyStr.rstrip_dot p.
Proof.
  destruct (violation_shows_the_configured_prefixes Scenario.repr_plain IMPORT
              Scenario.worker_py "pkg.db" Cases.config_import_api
              Cases.api_items "allowed_import_modules" ["pkg.api"])
    as (entry & shown & _ & _ & Hshown).
  - reflexivity.
  - exists shown. exact Hshown.
Defined.

Lemma tree_without_policy_files_passes_witness :
  main_loop Scenario.loads Scenario.repr_plain Scenario.one_import 2 Scenario.fs_bare
    Scenario.app_root [Scenario.other_py] = Ret ([], []).
Proof.
  apply (tree_without_policy_files_passes Scenario.loads Scenario.repr_plain
           Scenario.one_import Scenario.fs_bare 2 Scenario.app_root [Scenario.other_py]).
  - apply fs_bare_no_policy.
  - intros file [<-|[]] _.
    exists (mkPath Relative ["pkg"; "other.py"]), [Scenario.from_pkg_db].
    split; [vm_compute; reflexivity|].
    split; [discriminate|].
    split; [simpl; lia|].
    split; [reflexivity|].
    intros node m [<-|[]] _ [= <-].
    split; [vm_compute; reflexivity|].
    split; [simpl; repeat constructor; discriminate | simpl; lia].
Defined.

Lemma check_returns_within_the_depth_witness :
  fst (check_for_allowed Scenario.loads Scenario.repr_plain 2
         (Scenario.fs_with Scenario.text_export) IMPORT
         Scenario.other_py Scenario.app_root Scenario.from_pkg_db ∅) <> OutOfFuel
  /\ fst (check_for_allowed Scenario.loads Scenario.repr_plain 2
            (Scenario.fs_with Scenario.text_export) EXPORT
            Scenario.other_py Scenario.app_root Scenario.from_pkg_db ∅) <> OutOfFuel.
Proof.
  split.
  - apply (proj1 (check_returns_within_the_depth Scenario.loads Scenario.repr_plain
                    (Scenario.fs_with Scenario.text_export) 2
                    Scenario.other_py Scenario.app_root Scenario.from_pkg_db ∅)
                 (mkPath Relative ["pkg"; "other.py"])).
    + vm_compute; reflexivity.
    + discriminate.
    + simpl; lia.
  - apply (proj2 (check_returns_within_the_depth Scenario.loads Scenario.repr_plain
                    (Scenario.fs_with Scenario.text_export) 2
                    Scenario.other_py Scenario.app_root Scenario.from_pkg_db ∅)
                 "pkg.db").
    + reflexivity.
    + vm_compute; reflexivity.
    + simpl. repeat constructor; discriminate.
    + simpl; lia.
Defined.

Lemma export_check_without_module_starts_above_the_root_witness :
  check_for_allowed Scenario.loads Scenario.repr_plain 9 Scenario.fs_empty EXPORT
    Scenario.other_py Scenario.app_root Cases.relative_import ∅ = (OutOfFuel, ∅).
Proof.
  apply (proj1 (export_check_without_module_starts_above_the_root
                  Scenario.loads Scenario.repr_plain Scenario.fs_empty
                  Scenario.other_py Scenario.app_root Cases.relative_import ∅ 9
                  eq_refl
                  ltac:(discriminate)
                  (fun n => conj eq_refl (lookup_empty _)))).
Defined.

Lemma locality_depends_on_the_first_package_witness :
  is_local_import Scenario.fs_bare (mkImportFrom (Some ("pkg" +:+ "." +:+ "db")))
  = is_local_import Scenario.fs_bare (mkImportFrom (Some "pkg")).
Proof.
  apply (proj1 (locality_depends_on_the_first_package Scenario.fs_bare "pkg" "db"
                  ltac:(vm_compute; reflexivity))).
Defined.

Lemma build_module_from_path_strips_a_final_py_witness :
  build_module_from_path Scenario.other_py Scenario.app_root = Ret "pkg.other".
Proof.
  apply (build_module_from_path_strips_a_final_py Scenario.other_py Scenario.app_root
           (mkPath Relative ["pkg"; "other.py"]) "pkg.other");
    vm_compute; reflexivity.
Defined.

(** [main.py] is named, [pkg] is walked: only [main.py] comes out. *)
Lemma ignored_root_drops_every_walked_file_witness :
  is_file Cases.fs_main (Cases.cached_root // Pathlib.of_string "main.py") = true
  /\ exists filename,
       In filename ["main.py"; "pkg"]
       /\ Cases.cached_root // Pathlib.of_string "main.py"
          = Cases.cached_root // Pathlib.of_string filename.
Proof.
  apply (ignored_root_drops_every_walked_file Cases.rglob_mod Cases.fs_main
           Cases.cached_root ["main.py"; "pkg"]).
  - intros path found [<-|[]]. by exists ["mod.py"].
  - vm_compute; reflexivity.
  - intros filename [<-|[<-|[]]]; vm_compute; reflexivity.
  - vm_compute. left. reflexivity.
Defined.

(** Scenario A: [pkg/worker.py] imports [pkg.db] under the import list
    [pkg.api]. *)
Lemma import_check_passes_iff_listed_witness :
  check_for_allowed Scenario.loads Scenario.repr_plain 1 Scenario.fs_empty IMPORT
    Scenario.worker_py Scenario.app_root Scenario.from_pkg_db
    (<[Scenario.pkg_policy := Cases.config_import_api]> ∅)
  = (Ret [], <[Scenario.pkg_policy := Cases.config_import_api]> ∅)
  <-> exists p, In p ["pkg.api"]
                /\ ("pkg.db" = p \/ PyStr.startswith (p +:+ ".") "pkg.db" = true).
Proof.
  apply (import_check_passes_iff_listed Scenario.loads Scenario.repr_plain
           Scenario.fs_empty 1 Scenario.worker_py Scenario.app_root Scenario.from_pkg_db
           (<[Scenario.pkg_policy := Cases.config_import_api]> ∅)
           (<[Scenario.pkg_policy := Cases.config_import_api]> ∅)
           Cases.config_import_api ["pkg.api"] "pkg.db");
    vm_compute; reflexivity.
Defined.

Lemma export_check_passes_iff_exempt_or_exported_witness :
  check_for_allowed Scenario.loads Scenario.repr_plain 1
    (Scenario.fs_with Scenario.text_export_bypass) EXPORT
    Scenario.other_py Scenario.app_root Scenario.from_pkg_db ∅
  = (Ret [], <[Scenario.pkg_policy := Scenario.config_export_bypass]> ∅)
  <-> (exists p, In p ["pkg.other"]
                 /\ ("pkg.other" = p \/ PyStr.startswith (p +:+ ".") "pkg.other" = true))
      \/ (exists p, In p ["pkg.worker"]
                    /\ ("pkg.db" = p \/ PyStr.startswith (p +:+ ".") "pkg.db" = true)).
Proof.
  apply (export_check_passes_iff_exempt_or_exported Scenario.loads Scenario.repr_plain
           (Scenario.fs_with Scenario.text_export_bypass) 1
           Scenario.other_py Scenario.app_root Scenario.from_pkg_db
           ∅ (<[Scenario.pkg_policy := Scenario.config_export_bypass]> ∅)
           Scenario.config_export_bypass ["pkg.worker"] ["pkg.other"] false
           "pkg.db" "pkg.other");
    vm_compute; reflexivity.
Defined.
